(** * Document validation and extraction pipeline (week6/3-document-extractor)

    A shallow embedding of the two Lambda handlers

      - [document_extractor/backend/input_validator/main.py]  (the Validator stage)
      - [document_extractor/backend/extractor/main.py]        (the Extractor stage)

    and the properties of the envelopes they return.

    Python values are a small inductive universe, exceptions are values of an
    error monad, and the libraries the handlers call (boto3's S3 client, the
    strands agent, [json.loads], pydantic's field validators) are fields of a
    record [World]: the handlers are functions of the world they run in. *)

From Stdlib Require Import ZArith List String Ascii Bool Lia PrimFloat SpecFloat FloatOps.
Import ListNotations.

Local Open Scope string_scope.
Local Open Scope Z_scope.

Set Warnings "-register-all".

(* ===================================================================== *)
(** ** Python values, exceptions and the builtins the handlers use       *)
(* ===================================================================== *)

Module Py.

(** The values [json.loads] produces, which is also what a Lambda event is
    made of.  A [dict] keeps its items in insertion order; its keys are
    strings.  A character of a [str] is an [ascii]. *)
Inductive pyval : Type :=
| VNone
| VBool (b : bool)
| VInt (z : Z)
| VFloat (f : float)
| VStr (s : string)
| VList (l : list pyval)
| VDict (d : list (string * pyval)).

Definition dict : Type := list (string * pyval).

(** The classes of the exceptions that occur.  All derive from [Exception],
    so [except Exception] catches every one of them. *)
Inductive exn_class : Type :=
| KeyError
| IndexError
| TypeError
| ValueError
| JSONDecodeError      (* json.loads; a subclass of ValueError *)
| ValidationError      (* pydantic *)
| ServiceError.        (* raised inside boto3 or the strands agent *)

(** An exception: its class and the text [str(e)] gives. *)
Record exn : Type := Exn { exn_cls : exn_class; exn_str : string }.

(** Computations that return a value or raise. *)
Definition res (A : Type) : Type := (exn + A)%type.

Definition ret {A} (a : A) : res A := inr a.
Definition raise {A} (e : exn) : res A := inl e.

Definition bind {A B} (m : res A) (k : A -> res B) : res B :=
  match m with
  | inl e => inl e
  | inr a => k a
  end.

(** [try: body  except Exception as e: handler e]. *)
Definition try_except {A} (body : res A) (handler : exn -> res A) : res A :=
  match body with
  | inl e => handler e
  | inr a => inr a
  end.

Definition returns {A} (m : res A) : Prop := exists a, m = inr a.

(** *** dict *)

Fixpoint lookup (d : dict) (k : string) : option pyval :=
  match d with
  | [] => None
  | (k', v) :: d' => if String.eqb k' k then Some v else lookup d' k
  end.

(** [k in d] *)
Definition contains (d : dict) (k : string) : bool :=
  match lookup d k with Some _ => true | None => false end.

(** [d.get(k, default)] *)
Definition get_default (d : dict) (k : string) (default : pyval) : pyval :=
  match lookup d k with Some v => v | None => default end.

(** [d.get(k)] *)
Definition get (d : dict) (k : string) : pyval := get_default d k VNone.

(** [repr] of a key made of plain characters (no quote, no backslash), which
    is every key the handlers subscript with. *)
Definition repr_key (k : string) : string := "'" ++ k ++ "'".

(** [d[k]] on a dict *)
Definition getitem (d : dict) (k : string) : res pyval :=
  match lookup d k with
  | Some v => ret v
  | None => raise (Exn KeyError (repr_key k))
  end.

(** *** Subscripts, truth values and [+ 1] on arbitrary values

    The texts of the interpreter's own errors are CPython's (3.11 and later). *)

Definition dquote : string := String (ascii_of_nat 34) EmptyString.

Definition type_name (v : pyval) : string :=
  match v with
  | VNone => "NoneType"
  | VBool _ => "bool"
  | VInt _ => "int"
  | VFloat _ => "float"
  | VStr _ => "str"
  | VList _ => "list"
  | VDict _ => "dict"
  end.

Definition not_subscriptable {A} (v : pyval) : res A :=
  raise (Exn TypeError ("'" ++ type_name v ++ "' object is not subscriptable")).

(** [v[k]] for a string literal [k] *)
Definition subscript (v : pyval) (k : string) : res pyval :=
  match v with
  | VDict d => getitem d k
  | VList _ => raise (Exn TypeError "list indices must be integers or slices, not str")
  | VStr _ => raise (Exn TypeError "string indices must be integers, not 'str'")
  | _ => not_subscriptable v
  end.

(** [v[0]] *)
Definition subscript0 (v : pyval) : res pyval :=
  match v with
  | VList (x :: _) => ret x
  | VList [] => raise (Exn IndexError "list index out of range")
  | VStr (String c _) => ret (VStr (String c EmptyString))
  | VStr EmptyString => raise (Exn IndexError "string index out of range")
  | VDict _ => raise (Exn KeyError "0")   (* the keys of a dict are strings *)
  | _ => not_subscriptable v
  end.

(** [bool(v)], the test behind [not v] and [if v] *)
Definition truthy (v : pyval) : bool :=
  match v with
  | VNone => false
  | VBool b => b
  | VInt z => negb (z =? 0)
  | VFloat f => negb (PrimFloat.eqb f PrimFloat.zero)
  | VStr s => negb (String.eqb s "")
  | VList l => match l with [] => false | _ => true end
  | VDict d => match d with [] => false | _ => true end
  end.

(** [v + 1] *)
Definition add1 (v : pyval) : res pyval :=
  match v with
  | VInt z => ret (VInt (z + 1))
  | VBool b => ret (VInt ((if b then 1 else 0) + 1))
  | VFloat f => ret (VFloat (PrimFloat.add f PrimFloat.one))
  | VStr _ =>
      raise (Exn TypeError ("can only concatenate str (not " ++ dquote ++ "int" ++ dquote ++ ") to str"))
  | VList _ =>
      raise (Exn TypeError ("can only concatenate list (not " ++ dquote ++ "int" ++ dquote ++ ") to list"))
  | _ =>
      raise (Exn TypeError ("unsupported operand type(s) for +: '" ++ type_name v ++ "' and 'int'"))
  end.

(** *** str: [find], [rfind] of a character, and slices *)

Definition strlen (s : string) : Z := Z.of_nat (String.length s).

Fixpoint find_from (c : ascii) (s : string) (i : Z) : Z :=
  match s with
  | EmptyString => -1
  | String a s' => if Ascii.eqb a c then i else find_from c s' (i + 1)
  end.

(** [s.find(c)]: the lowest index of [c] in [s], or -1 *)
Definition find (s : string) (c : ascii) : Z := find_from c s 0.

Fixpoint rfind_from (c : ascii) (s : string) (i last : Z) : Z :=
  match s with
  | EmptyString => last
  | String a s' => rfind_from c s' (i + 1) (if Ascii.eqb a c then i else last)
  end.

(** [s.rfind(c)]: the highest index of [c] in [s], or -1 *)
Definition rfind (s : string) (c : ascii) : Z := rfind_from c s 0 (-1).

(** A slice bound: negative bounds count from the end, and both ends are
    clipped to the string. *)
Definition slice_bound (len i : Z) : Z :=
  if i <? 0 then Z.max 0 (i + len) else Z.min i len.

(** [s[lo:hi]] *)
Definition slice (s : string) (lo hi : Z) : string :=
  let lo' := slice_bound (strlen s) lo in
  let hi' := slice_bound (strlen s) hi in
  substring (Z.to_nat lo') (Z.to_nat (hi' - lo')) s.

(** [c in s] for a character *)
Fixpoint occurs (c : ascii) (s : string) : bool :=
  match s with
  | EmptyString => false
  | String a s' => Ascii.eqb a c || occurs c s'
  end.

End Py.

Export Py.

Declare Scope res_scope.
Delimit Scope res_scope with res.
Notation "x <- m ;; k" := (bind m (fun x => k))
  (at level 61, m at next level, right associativity) : res_scope.
Local Open Scope res_scope.

(* ===================================================================== *)
(** ** The world a handler runs in                                       *)
(* ===================================================================== *)

Definition bytes : Type := list Init.Byte.byte.

(** What the libraries answer during one invocation.  Each stage is its own
    process with its own clients, so each has its own world.

    - [s3_get_object bucket key]: [s3_client.get_object(Bucket=bucket,
      Key=key)] followed by [response["Body"].read()]: the blob, or the
      exception boto3 raises (no such key, no such bucket, a parameter that
      is not a string, no network).
    - [agent document]: the call [agent([{"text": prompt}, {"document":
      ...}], structured_output_model=...)] followed by [str(response)]: the
      raw text of the model's answer, or the exception the call raises.
      The prompt and the output model are constants of the stage; the fresh
      [uuid4] in the document's name is part of what the world decides.
    - [json_loads]: [json.loads].
    - [lax_bool], [lax_float]: what pydantic makes of the values whose
      conversion is not spelled out below (a text for a [float] field, a
      float for a [bool] field, ...): the value it converts the input to,
      or [None] when it rejects the input. *)
Record World : Type := {
  s3_get_object : pyval -> pyval -> res bytes;
  agent : bytes -> res string;
  json_loads : string -> res pyval;
  lax_bool : pyval -> option bool;
  lax_float : pyval -> option float
}.

(** [float(z)] for an [int]: the binary64 number nearest to [z], ties to
    even; no number when [z] is beyond the range of binary64. *)
Definition float_of_int (z : Z) : option float :=
  match binary_normalize prec emax z 0 false with
  | S754_infinity _ => None
  | S754_nan => None
  | s => Some (SF2Prim s)
  end.

(** The texts pydantic reads as a boolean (in lower case). *)
Definition bool_of_text (s : string) : option bool :=
  if existsb (String.eqb s) ["1"; "on"; "t"; "true"; "y"; "yes"] then Some true
  else if existsb (String.eqb s) ["0"; "off"; "f"; "false"; "n"; "no"] then Some false
  else None.

(** pydantic's check of one value, as [json.loads] produces it, against a
    field annotated [bool], [str] or [float], in its default (lax) mode.
    A value of the annotated type is taken as it is.  [null], a list and an
    object are never valid.  For [bool], the integers 0 and 1 and the texts
    of [bool_of_text] are converted and other integers rejected.  For
    [str], nothing but a string is valid.  For [float], an integer is
    converted as [float(z)] does.  The rest is left to the world. *)
Definition validate_bool (w : World) (v : pyval) : option bool :=
  match v with
  | VBool b => Some b
  | VInt z => if z =? 0 then Some false else if z =? 1 then Some true else None
  | VStr s =>
      match bool_of_text s with
      | Some b => Some b
      | None => lax_bool w v
      end
  | VFloat _ => lax_bool w v
  | VNone | VList _ | VDict _ => None
  end.

Definition validate_str (w : World) (v : pyval) : option string :=
  match v with
  | VStr s => Some s
  | _ => None
  end.

Definition validate_float (w : World) (v : pyval) : option float :=
  match v with
  | VFloat f => Some f
  | VInt z =>
      match float_of_int z with
      | Some f => Some f
      | None => lax_float w v
      end
  | VBool _ | VStr _ => lax_float w v
  | VNone | VList _ | VDict _ => None
  end.

(** Instantiating a pydantic model fails with a ValidationError whose text
    lists every offending field; the routines below print that text and
    never return it, and the model keeps its headline only. *)
Definition validation_error {A} (model : string) : res A :=
  raise (Exn ValidationError ("validation error for " ++ model)).

(** One required field of a model: the key must be among the keyword
    arguments and its value must pass the validator of the annotation.
    Keys that name no field are ignored (pydantic's default). *)
Definition field {A} (validate : pyval -> option A) (model : string)
    (kwargs : dict) (name : string) : res A :=
  match lookup kwargs name with
  | None => validation_error model
  | Some v =>
      match validate v with
      | Some a => ret a
      | None => validation_error model
      end
  end.

(** [Model( **parsed_json )]: the argument after [**] must be a mapping.
    The [TypeError] is raised inside the routines' [try] blocks, which print
    it; [model] stands for the qualified name of the class. *)
Definition kwargs_of (model : string) (parsed_json : pyval) : res dict :=
  match parsed_json with
  | VDict d => ret d
  | _ =>
      raise (Exn TypeError
        (model ++ "() argument after ** must be a mapping, not " ++ type_name parsed_json))
  end.

(** The [ValueError] both routines raise when a delimiter is missing. *)
Definition no_json_object : exn :=
  Exn ValueError "No JSON object found in the response.".

(* ===================================================================== *)
(** ** input_validator/main.py                                           *)
(* ===================================================================== *)

Module InputValidator.

(** [class ValidationResult(BaseModel)] *)
Record ValidationResult : Type := { is_bank_statement : bool }.

Definition ValidationResult_init (w : World) (parsed_json : pyval) : res ValidationResult :=
  kwargs <- kwargs_of "ValidationResult" parsed_json ;;
  b <- field (validate_bool w) "ValidationResult" kwargs "is_bank_statement" ;;
  ret {| is_bank_statement := b |}.

(** Lines 54-63: isolate the JSON object in the raw answer, decode it and
    build the model from it. *)
Definition parse_response (w : World) (raw_response_text : string) : res ValidationResult :=
  let json_start := find raw_response_text "{" in
  let json_end := rfind raw_response_text "}" + 1 in
  if (json_start =? -1) || (json_end =? 0) then raise no_json_object
  else
    let cleaned_json_str := slice raw_response_text json_start json_end in
    parsed_json <- json_loads w cleaned_json_str ;;
    ValidationResult_init w parsed_json.

(** The [try] block of [validate_bank_statement]. *)
Definition validate_try (w : World) (document : bytes) : res bool :=
  raw_response_text <- agent w document ;;
  validation_result <- parse_response w raw_response_text ;;
  ret (is_bank_statement validation_result).

Definition validate_bank_statement (w : World) (document : bytes) : res bool :=
  try_except (validate_try w document) (fun _ => ret false).

(** Lines 87-95: where the document is, by the shape of the event. *)
Definition locate (event : dict) : res (pyval * pyval) :=
  if contains event "Records" then
    records <- getitem event "Records" ;;
    s3_event <- subscript0 records ;;
    s3 <- subscript s3_event "s3" ;;
    bucket_obj <- subscript s3 "bucket" ;;
    bucket <- subscript bucket_obj "name" ;;
    s3' <- subscript s3_event "s3" ;;
    object <- subscript s3' "object" ;;
    key <- subscript object "key" ;;
    ret (bucket, key)
  else
    ret (get event "bucket", get event "key").

(** The [try] block of [handler].  The event is the dict Lambda decoded
    from the JSON input; [context] is not used. *)
Definition handler_try (w : World) (event : dict) : res pyval :=
  loc <- locate event ;;
  let bucket := fst loc in
  let key := snd loc in
  if negb (truthy bucket) || negb (truthy key) then
    raise (Exn ValueError "Missing bucket or key in event")
  else
    file_content <- s3_get_object w bucket key ;;
    validation_result <- validate_bank_statement w file_content ;;
    ret (VDict [("bucket", bucket); ("key", key); ("valid", VBool validation_result)]).

Definition handler (w : World) (event : dict) : res pyval :=
  try_except (handler_try w event)
    (fun e =>
       ret (VDict
         [("statusCode", VInt 500);
          ("error", VStr ("An exception occurred in the input_validator Lambda: " ++ exn_str e))])).

End InputValidator.

(* ===================================================================== *)
(** ** extractor/main.py                                                 *)
(* ===================================================================== *)

Module Extractor.

(** [class BankStatementData(BaseModel)] *)
Record BankStatementData : Type := {
  BankName : string;
  AccountNumber : string;
  OpeningBalance : float;
  ClosingBalance : float;
  StartDate : string;
  EndDate : string
}.

Definition BankStatementData_init (w : World) (parsed_json : pyval) : res BankStatementData :=
  kwargs <- kwargs_of "BankStatementData" parsed_json ;;
  bank_name <- field (validate_str w) "BankStatementData" kwargs "BankName" ;;
  account_number <- field (validate_str w) "BankStatementData" kwargs "AccountNumber" ;;
  opening_balance <- field (validate_float w) "BankStatementData" kwargs "OpeningBalance" ;;
  closing_balance <- field (validate_float w) "BankStatementData" kwargs "ClosingBalance" ;;
  start_date <- field (validate_str w) "BankStatementData" kwargs "StartDate" ;;
  end_date <- field (validate_str w) "BankStatementData" kwargs "EndDate" ;;
  ret {| BankName := bank_name; AccountNumber := account_number;
         OpeningBalance := opening_balance; ClosingBalance := closing_balance;
         StartDate := start_date; EndDate := end_date |}.

(** [bank_statement_data.model_dump()] *)
Definition model_dump (r : BankStatementData) : pyval :=
  VDict
    [("BankName", VStr (BankName r));
     ("AccountNumber", VStr (AccountNumber r));
     ("OpeningBalance", VFloat (OpeningBalance r));
     ("ClosingBalance", VFloat (ClosingBalance r));
     ("StartDate", VStr (StartDate r));
     ("EndDate", VStr (EndDate r))].

(** Lines 56-66: isolate the JSON object in the raw answer, decode it and
    build the model from it. *)
Definition parse_response (w : World) (raw_response_text : string) : res BankStatementData :=
  let json_start := find raw_response_text "{" in
  let json_end := rfind raw_response_text "}" + 1 in
  if (json_start =? -1) || (json_end =? 0) then raise no_json_object
  else
    let cleaned_json_str := slice raw_response_text json_start json_end in
    parsed_json <- json_loads w cleaned_json_str ;;
    BankStatementData_init w parsed_json.

(** The [try] block of [extract_bank_statement_data]. *)
Definition extract_try (w : World) (document : bytes) : res pyval :=
  raw_response_text <- agent w document ;;
  bank_statement_data <- parse_response w raw_response_text ;;
  ret (model_dump bank_statement_data).

Definition extract_bank_statement_data (w : World) (document : bytes) : res pyval :=
  try_except (extract_try w document) (fun _ => ret (VDict [])).

(** [event.get("retry_count", 0) + 1] *)
Definition next_retry_count (event : dict) : res pyval :=
  add1 (get_default event "retry_count" (VInt 0)).

(** The [try] block of [handler].  [json.dumps(event)] cannot fail on an
    event that was decoded from JSON; what is printed is not modelled. *)
Definition handler_try (w : World) (event : dict) : res pyval :=
  bucket <- getitem event "bucket" ;;
  key <- getitem event "key" ;;
  file_content <- s3_get_object w bucket key ;;
  extracted_data <- extract_bank_statement_data w file_content ;;
  let is_valid := truthy extracted_data in
  retry_count <- next_retry_count event ;;
  ret (VDict
    [("bucket", bucket);
     ("key", key);
     ("valid", VBool is_valid);
     ("extracted_data", extracted_data);
     ("retry_count", retry_count)]).

Definition handler (w : World) (event : dict) : res pyval :=
  try_except (handler_try w event)
    (fun e =>
       retry_count <- next_retry_count event ;;
       ret (VDict
         [("bucket", get event "bucket");
          ("key", get event "key");
          ("valid", VBool false);
          ("extracted_data", VDict []);
          ("retry_count", retry_count);
          ("error", VStr (exn_str e))])).

End Extractor.

(* ===================================================================== *)
(** ** Vocabulary of the pipeline contract                               *)
(* ===================================================================== *)

(** The text both routines hand to [json.loads]: from the first "{" to the
    last "}" of the raw answer. *)
Definition json_slice (text : string) : string :=
  slice text (find text "{") (rfind text "}" + 1).

(** Both delimiters occur in the text. *)
Definition has_delimiters (text : string) : bool :=
  occurs "{" text && occurs "}" text.

(** The invocation envelope types [retry_count] as an optional integer. *)
Definition retry_count_ok (event : dict) : Prop :=
  lookup event "retry_count" = None \/
  exists n, lookup event "retry_count" = Some (VInt n).

(** The incoming attempt counter, a missing one counting as 0. *)
Definition retry_count_in (event : dict) : Z :=
  match lookup event "retry_count" with
  | Some (VInt n) => n
  | _ => 0
  end.

(** The fields a model class declares, with their annotations. *)
Inductive annotation : Type := TBool | TStr | TFloat.

Definition ValidationResult_fields : list (string * annotation) :=
  [("is_bank_statement", TBool)].

Definition BankStatementData_fields : list (string * annotation) :=
  [("BankName", TStr); ("AccountNumber", TStr);
   ("OpeningBalance", TFloat); ("ClosingBalance", TFloat);
   ("StartDate", TStr); ("EndDate", TStr)].

Definition is_some {A} (o : option A) : bool :=
  match o with Some _ => true | None => false end.

Definition accepts (w : World) (t : annotation) (v : pyval) : bool :=
  match t with
  | TBool => is_some (validate_bool w v)
  | TStr => is_some (validate_str w v)
  | TFloat => is_some (validate_float w v)
  end.

(** A decoded object supplies a field when the key is there and its value
    passes the field's validator. *)
Definition supplies (w : World) (obj : dict) (f : string * annotation) : bool :=
  match lookup obj (fst f) with
  | Some v => accepts w (snd f) v
  | None => false
  end.

(** The sliced text is not JSON, or it is a JSON object that lacks a
    declared field or holds a value the field's validator rejects. *)
Definition schema_mismatch (w : World) (fields : list (string * annotation))
    (text : string) : Prop :=
  (exists e, json_loads w (json_slice text) = raise e) \/
  (exists obj, json_loads w (json_slice text) = ret (VDict obj) /\
     exists f, In f fields /\ supplies w obj f = false).

(** The exception of a schema fault: the one [json.loads] raised on the
    sliced text, or pydantic's ValidationError. *)
Definition schema_error (w : World) (text : string) (e : exn) : Prop :=
  json_loads w (json_slice text) = raise e \/ exn_cls e = ValidationError.

(** The kinds of fault of the error taxonomy; a transport fault is either
    the object store's or the inference service's. *)
Inductive fault : Type :=
| ObjectStoreFault (e : exn)
| InferenceFault (e : exn)
| ParseFault
| SchemaFault
| NegativeClassification.

(** The Validator got hold of the document of the event. *)
Definition validator_fetched (w : World) (event : dict)
    (bucket key : pyval) (doc : bytes) : Prop :=
  InputValidator.locate event = ret (bucket, key) /\
  truthy bucket = true /\ truthy key = true /\
  s3_get_object w bucket key = ret doc.

(** Which fault, if any, an invocation of the Validator runs into. *)
Inductive validator_fault (w : World) (event : dict) : fault -> Prop :=
| VF_store bucket key e :
    InputValidator.locate event = ret (bucket, key) ->
    truthy bucket = true -> truthy key = true ->
    s3_get_object w bucket key = raise e ->
    validator_fault w event (ObjectStoreFault e)
| VF_inference bucket key doc e :
    validator_fetched w event bucket key doc ->
    agent w doc = raise e ->
    validator_fault w event (InferenceFault e)
| VF_parse bucket key doc text :
    validator_fetched w event bucket key doc ->
    agent w doc = ret text ->
    has_delimiters text = false ->
    validator_fault w event ParseFault
| VF_schema bucket key doc text :
    validator_fetched w event bucket key doc ->
    agent w doc = ret text ->
    has_delimiters text = true ->
    schema_mismatch w ValidationResult_fields text ->
    validator_fault w event SchemaFault
| VF_negative bucket key doc text obj v :
    validator_fetched w event bucket key doc ->
    agent w doc = ret text ->
    has_delimiters text = true ->
    json_loads w (json_slice text) = ret (VDict obj) ->
    lookup obj "is_bank_statement" = Some v ->
    validate_bool w v = Some false ->
    validator_fault w event NegativeClassification.

(** The Extractor got hold of the document of the event. *)
Definition extractor_fetched (w : World) (event : dict)
    (bucket key : pyval) (doc : bytes) : Prop :=
  lookup event "bucket" = Some bucket /\
  lookup event "key" = Some key /\
  s3_get_object w bucket key = ret doc.

(** Which fault, if any, an invocation of the Extractor runs into. *)
Inductive extractor_fault (w : World) (event : dict) : fault -> Prop :=
| EF_store bucket key e :
    lookup event "bucket" = Some bucket ->
    lookup event "key" = Some key ->
    s3_get_object w bucket key = raise e ->
    extractor_fault w event (ObjectStoreFault e)
| EF_inference bucket key doc e :
    extractor_fetched w event bucket key doc ->
    agent w doc = raise e ->
    extractor_fault w event (InferenceFault e)
| EF_parse bucket key doc text :
    extractor_fetched w event bucket key doc ->
    agent w doc = ret text ->
    has_delimiters text = false ->
    extractor_fault w event ParseFault
| EF_schema bucket key doc text :
    extractor_fetched w event bucket key doc ->
    agent w doc = ret text ->
    has_delimiters text = true ->
    schema_mismatch w BankStatementData_fields text ->
    extractor_fault w event SchemaFault.

(** A handler returned an envelope whose [valid] field is [False]. *)
Definition valid_false (r : res pyval) : Prop :=
  exists d, r = ret (VDict d) /\ lookup d "valid" = Some (VBool false).

(** The envelope the Validator returns when its [try] block raises. *)
Definition validator_error_envelope (e : exn) : pyval :=
  VDict
    [("statusCode", VInt 500);
     ("error", VStr ("An exception occurred in the input_validator Lambda: " ++ exn_str e))].

(** The envelope of the [except] branch of the Extractor's handler. *)
Definition failure_envelope (event : dict) (e : exn) : pyval :=
  VDict
    [("bucket", get event "bucket");
     ("key", get event "key");
     ("valid", VBool false);
     ("extracted_data", VDict []);
     ("retry_count", VInt (retry_count_in event + 1));
     ("error", VStr (exn_str e))].

(** The envelope of the [try] block of the Extractor's handler. *)
Definition result_envelope (event : dict) (bucket key data : pyval) : pyval :=
  VDict
    [("bucket", bucket);
     ("key", key);
     ("valid", VBool (truthy data));
     ("extracted_data", data);
     ("retry_count", VInt (retry_count_in event + 1))].

(** The first record's S3 fields of a "Records" event. *)
Definition first_record (event : dict) : res pyval :=
  records <- getitem event "Records" ;;
  subscript0 records.

Definition record_bucket (event : dict) : res pyval :=
  s3_event <- first_record event ;;
  s3 <- subscript s3_event "s3" ;;
  bucket <- subscript s3 "bucket" ;;
  subscript bucket "name".

Definition record_key (event : dict) : res pyval :=
  s3_event <- first_record event ;;
  s3 <- subscript s3_event "s3" ;;
  object <- subscript s3 "object" ;;
  subscript object "key".

(* ===================================================================== *)
(** ** Test doubles                                                      *)
(* ===================================================================== *)

Module Stub.

(** The first bytes of a PDF. *)
Definition pdf : bytes := [Init.Byte.x25; Init.Byte.x50; Init.Byte.x44; Init.Byte.x46].

Definition decode_error : exn :=
  Exn JSONDecodeError "Expecting value: line 1 column 1 (char 0)".

Definition no_such_key : exn :=
  Exn ServiceError "An error occurred (NoSuchKey) when calling the GetObject operation: The specified key does not exist.".

Definition throttled : exn :=
  Exn ServiceError "An error occurred (ThrottlingException) when calling the ConverseStream operation: Too many requests".

(** A world whose object store and inference service answer the same to
    every call, whose JSON decoder knows the texts of [table] only, and whose
    pydantic converts nothing but what [validate_bool] and [validate_float]
    spell out. *)
Definition world (store : res bytes) (answer : res string) (table : dict) : World :=
  {| s3_get_object := fun _ _ => store;
     agent := fun _ => answer;
     json_loads := fun s =>
       match lookup table s with
       | Some v => ret v
       | None => raise decode_error
       end;
     lax_bool := fun _ => None;
     lax_float := fun _ => None |}.

Definition q (s : string) : string := dquote ++ s ++ dquote.

(** The Validator's answers. *)
Definition negative_json : string := "{" ++ q "is_bank_statement" ++ ": false}".
Definition positive_json : string := "{" ++ q "is_bank_statement" ++ ": true}".
Definition noisy_answer : string := "Sure! " ++ negative_json ++ " Hope that helps.".
Definition misnamed_json : string := "{" ++ q "verdict" ++ ": true}".
Definition refusal : string := "I am unable to read this document.".

Definition validator_table : dict :=
  [(negative_json, VDict [("is_bank_statement", VBool false)]);
   (positive_json, VDict [("is_bank_statement", VBool true)]);
   (misnamed_json, VDict [("verdict", VBool true)])].

(** The Extractor's answers. *)
Definition statement_json : string :=
  "{" ++ q "BankName" ++ ": " ++ q "First Bank" ++ ", "
      ++ q "AccountNumber" ++ ": " ++ q "12-345" ++ ", "
      ++ q "OpeningBalance" ++ ": 100.0, "
      ++ q "ClosingBalance" ++ ": 250.5, "
      ++ q "StartDate" ++ ": " ++ q "2024-01-01" ++ ", "
      ++ q "EndDate" ++ ": " ++ q "2024-01-31" ++ "}".

Definition statement : dict :=
  [("BankName", VStr "First Bank");
   ("AccountNumber", VStr "12-345");
   ("OpeningBalance", VFloat 100%float);
   ("ClosingBalance", VFloat 250.5%float);
   ("StartDate", VStr "2024-01-01");
   ("EndDate", VStr "2024-01-31")].

Definition noisy_statement : string :=
  "Here is the extracted data: " ++ statement_json ++ " Let me know if anything is missing.".

Definition statement_record : Extractor.BankStatementData :=
  {| Extractor.BankName := "First Bank";
     Extractor.AccountNumber := "12-345";
     Extractor.OpeningBalance := 100%float;
     Extractor.ClosingBalance := 250.5%float;
     Extractor.StartDate := "2024-01-01";
     Extractor.EndDate := "2024-01-31" |}.

(** The same answer without [ClosingBalance]. *)
Definition partial_json : string :=
  "{" ++ q "BankName" ++ ": " ++ q "First Bank" ++ ", "
      ++ q "AccountNumber" ++ ": " ++ q "12-345" ++ ", "
      ++ q "OpeningBalance" ++ ": 100.0, "
      ++ q "StartDate" ++ ": " ++ q "2024-01-01" ++ ", "
      ++ q "EndDate" ++ ": " ++ q "2024-01-31" ++ "}".

Definition partial_statement : dict :=
  [("BankName", VStr "First Bank");
   ("AccountNumber", VStr "12-345");
   ("OpeningBalance", VFloat 100%float);
   ("StartDate", VStr "2024-01-01");
   ("EndDate", VStr "2024-01-31")].

Definition extractor_table : dict :=
  [(statement_json, VDict statement); (partial_json, VDict partial_statement)].

(** Worlds in which the document is there and the model gives [answer]. *)
Definition validator_world (answer : string) : World :=
  world (ret pdf) (ret answer) validator_table.

Definition extractor_world (answer : string) : World :=
  world (ret pdf) (ret answer) extractor_table.

(** A world whose object store has no such document. *)
Definition store_down : World :=
  world (raise no_such_key) (ret positive_json) validator_table.

(** A world whose inference service refuses the call. *)
Definition inference_down : World :=
  world (ret pdf) (raise throttled) extractor_table.

(** Events. *)
Definition step_event : dict :=
  [("bucket", VStr "statements"); ("key", VStr "uploads/june.pdf")].

Definition retry_event : dict :=
  [("bucket", VStr "statements"); ("key", VStr "uploads/june.pdf"); ("retry_count", VInt 2)].

Definition keyless_event : dict := [("bucket", VStr "statements")].

Definition s3_record : pyval :=
  VDict [("s3", VDict [("bucket", VDict [("name", VStr "inbox")]);
                       ("object", VDict [("key", VStr "scan.pdf")])])].

(** An S3 notification that also carries top-level fields. *)
Definition s3_event : dict :=
  [("Records", VList [s3_record]);
   ("bucket", VStr "statements"); ("key", VStr "uploads/june.pdf")].

End Stub.

(* ===================================================================== *)
(** ** Further vocabulary and test data                                  *)
(* ===================================================================== *)

(** [v + 1] is defined on the numbers: [int], [bool] and [float]. *)
Definition is_number (v : pyval) : bool :=
  match v with
  | VInt _ | VBool _ | VFloat _ => true
  | _ => false
  end.

(** A JSON number and the float it denotes: a float itself, an integer
    the float [float(z)] gives. *)
Inductive json_number : pyval -> float -> Prop :=
| number_float (f : float) : json_number (VFloat f) f
| number_int (z : Z) (f : float) : float_of_int z = Some f -> json_number (VInt z) f.

(** The JSON type of a value is the one an annotation names: a boolean for
    [bool], a string for [str], a number for [float]. *)
Definition has_json_type (t : annotation) (v : pyval) : bool :=
  match t, v with
  | TBool, VBool _ => true
  | TStr, VStr _ => true
  | TFloat, (VFloat _ | VInt _) => true
  | _, _ => false
  end.

(** The values no conversion saves: [null], a list and an object for any
    field, anything but a string for a [str] field, an integer other than 0
    and 1 for a [bool] field. *)
Definition rejected_outright (t : annotation) (v : pyval) : bool :=
  match v with
  | VNone | VList _ | VDict _ => true
  | VStr _ => false
  | VInt z =>
      match t with
      | TStr => true
      | TBool => negb ((z =? 0) || (z =? 1))
      | TFloat => false
      end
  | VFloat _ | VBool _ =>
      match t with
      | TStr => true
      | _ => false
      end
  end.

Module Cases.

(** An answer that gives the verdict as a text. *)
Definition affirmative_json : string :=
  "{" ++ Stub.q "is_bank_statement" ++ ": " ++ Stub.q "yes" ++ "}".

Definition affirmative_world : World :=
  Stub.world (ret Stub.pdf) (ret affirmative_json)
    [(affirmative_json, VDict [("is_bank_statement", VStr "yes")])].

(** A statement whose opening balance is a JSON integer and which has a key
    the schema does not know, wrapped in two sentences. *)
Definition integer_statement_json : string :=
  "{" ++ Stub.q "Currency" ++ ": " ++ Stub.q "EUR" ++ ", "
      ++ Stub.q "BankName" ++ ": " ++ Stub.q "First Bank" ++ ", "
      ++ Stub.q "AccountNumber" ++ ": " ++ Stub.q "12-345" ++ ", "
      ++ Stub.q "OpeningBalance" ++ ": 100, "
      ++ Stub.q "ClosingBalance" ++ ": 250.5, "
      ++ Stub.q "StartDate" ++ ": " ++ Stub.q "2024-01-01" ++ ", "
      ++ Stub.q "EndDate" ++ ": " ++ Stub.q "2024-01-31" ++ "}".

Definition integer_statement : dict :=
  [("Currency", VStr "EUR");
   ("BankName", VStr "First Bank");
   ("AccountNumber", VStr "12-345");
   ("OpeningBalance", VInt 100);
   ("ClosingBalance", VFloat 250.5%float);
   ("StartDate", VStr "2024-01-01");
   ("EndDate", VStr "2024-01-31")].

Definition integer_answer : string :=
  "Here is the extracted data: " ++ integer_statement_json ++ " Anything else?".

(** A statement whose bank name is a number. *)
Definition numbered_bank_json : string :=
  "{" ++ Stub.q "BankName" ++ ": 7, "
      ++ Stub.q "AccountNumber" ++ ": " ++ Stub.q "12-345" ++ ", "
      ++ Stub.q "OpeningBalance" ++ ": 100.0, "
      ++ Stub.q "ClosingBalance" ++ ": 250.5, "
      ++ Stub.q "StartDate" ++ ": " ++ Stub.q "2024-01-01" ++ ", "
      ++ Stub.q "EndDate" ++ ": " ++ Stub.q "2024-01-31" ++ "}".

Definition numbered_bank : dict :=
  [("BankName", VInt 7);
   ("AccountNumber", VStr "12-345");
   ("OpeningBalance", VFloat 100%float);
   ("ClosingBalance", VFloat 250.5%float);
   ("StartDate", VStr "2024-01-01");
   ("EndDate", VStr "2024-01-31")].

Definition statements_world (answer : string) : World :=
  Stub.world (ret Stub.pdf) (ret answer)
    [(integer_statement_json, VDict integer_statement);
     (numbered_bank_json, VDict numbered_bank)].

(** An S3 notification with two records and with top-level fields. *)
Definition archive_record : pyval :=
  VDict [("s3", VDict [("bucket", VDict [("name", VStr "archive")]);
                       ("object", VDict [("key", VStr "old.pdf")])])].

Definition two_records_event : dict :=
  [("bucket", VStr "statements"); ("key", VStr "uploads/june.pdf");
   ("Records", VList [Stub.s3_record; archive_record])].

(** An answer whose only "}" comes before its only "{". *)
Definition misordered_answer : string := "} nothing to report {".

(** An answer with two objects. *)
Definition two_objects : string :=
  "First " ++ Stub.negative_json ++ " then " ++ Stub.positive_json ++ ".".

(** A decoder that, like [json.loads], rejects the empty text. *)
Definition strict_world (answer : string) : World :=
  Stub.world (ret Stub.pdf) (ret answer) Stub.validator_table.

(** An S3 notification without records, and one whose record has no "s3". *)
Definition empty_records_event : dict := [("Records", VList [])].

Definition bare_record_event : dict :=
  [("Records", VList [VDict [("eventName", VStr "ObjectCreated:Put")]])].

(** An S3 notification whose bucket name is empty. *)
Definition unnamed_bucket_event : dict :=
  [("Records",
    VList [VDict [("s3", VDict [("bucket", VDict [("name", VStr "")]);
                                ("object", VDict [("key", VStr "scan.pdf")])])]])].

(** Events whose counter is not an integer. *)
Definition text_counter_event : dict :=
  [("bucket", VStr "statements"); ("key", VStr "uploads/june.pdf");
   ("retry_count", VStr "2")].

Definition bool_counter_event : dict :=
  [("bucket", VStr "statements"); ("key", VStr "uploads/june.pdf");
   ("retry_count", VBool true)].

End Cases.

(* ===================================================================== *)
(** ** admin/src/app/status_updater.py                                   *)
(* ===================================================================== *)

Module StatusUpdater.

(** An item of the table, as boto3's resource interface returns and takes
    it: a dict of attributes.  (DynamoDB numbers arrive as [Decimal]; their
    truth value is that of a number, and [VInt] stands for them.) *)
Definition item : Type := dict.

(** What leaves the handler as an exception: the [AttributeError] of its
    first statement, or an exception of the table that it logs and raises
    again. *)
Inductive raised : Type :=
| AttributeError (msg : string)
| Reraised (e : exn).

(** The calls the handler makes on the table. *)
Inductive call : Type :=
| Query
| Put (q : item).

(** The table during one invocation.
    - [query]: [table.query(KeyConditionExpression=Key('PK').eq('QUESTIONS'))]
      followed by [response.get('Items', [])]: the items of the answer (the
      handler asks for one page), or the exception boto3 raises.
    - [put_item done q]: [batch.put_item(Item=q)] after the items [done]
      were put in the same batch; it raises when a flush of the buffer
      fails.
    - [batch_exit puts]: leaving the [with] block, which flushes what is
      left of the buffer. *)
Record Table : Type := {
  query : res (list item);
  put_item : list item -> item -> res unit;
  batch_exit : list item -> res unit
}.

(** [d[k] = v]: the value of an existing key is replaced where it stands, a
    new key goes to the end. *)
Fixpoint setitem (d : dict) (k : string) (v : pyval) : dict :=
  match d with
  | [] => [(k, v)]
  | (k', v') :: d' =>
      if String.eqb k' k then (k', v) :: d' else (k', v') :: setitem d' k v
  end.

(** [v == s] for a string literal [s] *)
Definition eq_str (v : pyval) (s : string) : bool :=
  match v with
  | VStr s' => String.eqb s' s
  | _ => false
  end.

(** [event.get('detail', {}).get('status')] *)
Definition job_status (event : dict) : raised + pyval :=
  match get_default event "detail" (VDict []) with
  | VDict detail => inr (get detail "status")
  | v => inl (AttributeError ("'" ++ type_name v ++ "' object has no attribute 'get'"))
  end.

(** The filter of line 39:
    ['answer' in q and q['answer'] and not q.get('processed', False)] *)
Definition pending (q : item) : bool :=
  match lookup q "answer" with
  | Some answer => truthy answer && negb (truthy (get_default q "processed" (VBool false)))
  | None => false
  end.

(** [q['processed'] = True] *)
Definition mark (q : item) : item := setitem q "processed" (VBool true).

(** The loop of lines 49-51; [done] are the items put so far.  Returns the
    items handed to [put_item], the failing one included. *)
Fixpoint put_all (t : Table) (done : list item) (qs : list item) : list item * res unit :=
  match qs with
  | [] => (done, ret tt)
  | q :: rest =>
      let q' := mark q in
      match put_item t done q' with
      | inl e => ((done ++ [q'])%list, raise e)
      | inr _ => put_all t (done ++ [q'])%list rest
      end
  end.

(** [with table.batch_writer() as batch: ...]: the exit runs whether the
    body raised or not, and what it raises replaces the body's outcome. *)
Definition with_batch_writer (t : Table) (qs : list item) : list item * res unit :=
  let body := put_all t [] qs in
  match batch_exit t (fst body) with
  | inl e => (fst body, raise e)
  | inr _ => body
  end.

Definition no_questions : pyval :=
  VDict [("statusCode", VInt 200); ("body", VStr "No questions to update.")].

Definition processed_response : pyval :=
  VDict [("statusCode", VInt 200); ("body", VStr "Status update processed.")].

(** [handler(event, context)]: the calls made on the table and the outcome.
    Logging is not modelled. *)
Definition handler (t : Table) (event : dict) : list call * (raised + pyval) :=
  match job_status event with
  | inl a => ([], inl a)
  | inr status =>
      if eq_str status "COMPLETED" then
        match query t with
        | inl e => ([Query], inl (Reraised e))
        | inr all_questions =>
            let answered_questions := filter pending all_questions in
            match answered_questions with
            | [] => ([Query], inr no_questions)
            | _ :: _ =>
                let written := with_batch_writer t answered_questions in
                match snd written with
                | inl e => (Query :: map Put (fst written), inl (Reraised e))
                | inr _ => (Query :: map Put (fst written), inr processed_response)
                end
            end
        end
      else if eq_str status "FAILED" then ([], inr processed_response)
      else ([], inr processed_response)
  end.

(** The table as one more run finds it when every put of a run arrived. *)
Definition settled (items : list item) : list item :=
  map (fun q => if pending q then mark q else q) items.

End StatusUpdater.

Module Admin.

(** A table that answers every call. *)
Definition table (items : list StatusUpdater.item) : StatusUpdater.Table :=
  {| StatusUpdater.query := ret items;
     StatusUpdater.put_item := fun _ _ => ret tt;
     StatusUpdater.batch_exit := fun _ => ret tt |}.

Definition throttled : exn :=
  Exn ServiceError "An error occurred (ProvisionedThroughputExceededException) when calling the BatchWriteItem operation".

(** A table whose batch accepts one item and fails on the next. *)
Definition table_failing_second (items : list StatusUpdater.item) : StatusUpdater.Table :=
  {| StatusUpdater.query := ret items;
     StatusUpdater.put_item := fun done _ =>
       match done with
       | [] => ret tt
       | _ :: _ => raise throttled
       end;
     StatusUpdater.batch_exit := fun _ => ret tt |}.

(** A table that cannot be queried. *)
Definition table_down : StatusUpdater.Table :=
  {| StatusUpdater.query := raise throttled;
     StatusUpdater.put_item := fun _ _ => ret tt;
     StatusUpdater.batch_exit := fun _ => ret tt |}.

Definition question (sk text : string) (rest : dict) : StatusUpdater.item :=
  (("PK", VStr "QUESTIONS") :: ("SK", VStr sk) :: ("question", VStr text) :: rest)%list.

Definition answered_new : StatusUpdater.item :=
  question "Q#1" "Where did you study?" [("answer", VStr "In Utrecht."); ("processed", VBool false)].

Definition answered_unflagged : StatusUpdater.item :=
  question "Q#2" "Which languages do you speak?" [("answer", VStr "Dutch and English.")].

Definition answered_done : StatusUpdater.item :=
  question "Q#3" "Do you mentor?" [("answer", VStr "Yes."); ("processed", VBool true)].

Definition unanswered : StatusUpdater.item :=
  question "Q#4" "What is your favourite editor?" [].

Definition blank_answer : StatusUpdater.item :=
  question "Q#5" "Do you travel?" [("answer", VStr "")].

Definition answered_late : StatusUpdater.item :=
  question "Q#6" "Do you give talks?" [("answer", VStr "Twice a year.")].

Definition questions : list StatusUpdater.item :=
  [answered_new; unanswered; answered_done; answered_unflagged; blank_answer].

Definition completed_event : dict :=
  [("source", VStr "aws.bedrock");
   ("detail", VDict [("status", VStr "COMPLETED"); ("knowledgeBaseId", VStr "KB1")])].

Definition failed_event : dict :=
  [("source", VStr "aws.bedrock"); ("detail", VDict [("status", VStr "FAILED")])].

Definition scheduled_event : dict := [("source", VStr "aws.events")].

Definition null_detail_event : dict := [("detail", VNone)].

End Admin.

(* ===================================================================== *)
(** ** Facts about [find], [rfind] and slices                            *)
(* ===================================================================== *)

Section StrFacts.

Variable c : ascii.

Lemma strlen_nonneg (s : string) : 0 <= strlen s.
Proof. unfold strlen. lia. Qed.

Lemma strlen_cons (a : ascii) (s : string) : strlen (String a s) = strlen s + 1.
Proof. unfold strlen. cbn [String.length]. lia. Qed.

Lemma strlen_app (s t : string) : strlen (s ++ t) = strlen s + strlen t.
Proof.
  induction s as [|a s IH]; cbn [append].
  - unfold strlen at 2. simpl. lia.
  - rewrite !strlen_cons, IH. lia.
Qed.

Lemma occurs_app (s t : string) : occurs c (s ++ t) = occurs c s || occurs c t.
Proof.
  induction s as [|a s IH]; cbn [append occurs]; [reflexivity|].
  rewrite IH. apply orb_assoc.
Qed.

Lemma find_from_absent (s : string) (i : Z) :
  occurs c s = false -> find_from c s i = -1.
Proof.
  revert i. induction s as [|a s IH]; intros i H; cbn [find_from]; [reflexivity|].
  cbn [occurs] in H. apply orb_false_elim in H as [Ha Hs].
  rewrite Ha. now apply IH.
Qed.

Lemma find_from_present (s : string) (i : Z) :
  occurs c s = true -> i <= find_from c s i < i + strlen s.
Proof.
  revert i. induction s as [|a s IH]; intros i H; cbn [occurs] in H; [discriminate|].
  cbn [find_from]. rewrite strlen_cons. pose proof (strlen_nonneg s).
  destruct (Ascii.eqb a c); [lia|].
  cbn [orb] in H. specialize (IH (i + 1) H). lia.
Qed.

Lemma rfind_from_absent (s : string) (i last : Z) :
  occurs c s = false -> rfind_from c s i last = last.
Proof.
  revert i last. induction s as [|a s IH]; intros i last H; cbn [rfind_from]; [reflexivity|].
  cbn [occurs] in H. apply orb_false_elim in H as [Ha Hs].
  rewrite Ha. now apply IH.
Qed.

Lemma rfind_from_bounds (s : string) (i last : Z) :
  rfind_from c s i last = last \/ i <= rfind_from c s i last < i + strlen s.
Proof.
  revert i last. induction s as [|a s IH]; intros i last; cbn [rfind_from]; [now left|].
  rewrite strlen_cons. pose proof (strlen_nonneg s).
  destruct (IH (i + 1) (if Ascii.eqb a c then i else last)) as [E|B].
  - rewrite E. destruct (Ascii.eqb a c); [right; lia | now left].
  - right. lia.
Qed.

Lemma rfind_from_present (s : string) (i last : Z) :
  occurs c s = true -> i <= rfind_from c s i last < i + strlen s.
Proof.
  revert i last. induction s as [|a s IH]; intros i last H; cbn [occurs] in H; [discriminate|].
  cbn [rfind_from]. rewrite strlen_cons. pose proof (strlen_nonneg s).
  destruct (Ascii.eqb a c) eqn:Ha.
  - destruct (rfind_from_bounds s (i + 1) i) as [E|B]; [rewrite E|]; lia.
  - cbn [orb] in H. specialize (IH (i + 1) last H). lia.
Qed.

(** [find] lands on the first occurrence. *)
Lemma find_from_app (pre rest : string) (i : Z) :
  occurs c pre = false ->
  find_from c (pre ++ String c rest) i = i + strlen pre.
Proof.
  revert i. induction pre as [|a pre IH]; intros i H; cbn [append find_from].
  - rewrite Ascii.eqb_refl. unfold strlen. simpl. lia.
  - cbn [occurs] in H. apply orb_false_elim in H as [Ha Hp].
    rewrite Ha, IH, strlen_cons by assumption. lia.
Qed.

(** [rfind] lands on the last occurrence. *)
Lemma rfind_from_app (pre post : string) (i last : Z) :
  occurs c post = false ->
  rfind_from c (pre ++ String c post) i last = i + strlen pre.
Proof.
  revert i last. induction pre as [|a pre IH]; intros i last H; cbn [append rfind_from].
  - rewrite Ascii.eqb_refl, rfind_from_absent by assumption. unfold strlen. simpl. lia.
  - rewrite IH, strlen_cons by assumption. lia.
Qed.

End StrFacts.

Lemma append_assoc (s t u : string) : (s ++ t) ++ u = s ++ (t ++ u).
Proof. induction s as [|a s IH]; cbn [append]; [reflexivity | now rewrite IH]. Qed.

Lemma substring_skip (pre s : string) (n : nat) :
  substring (String.length pre) n (pre ++ s) = substring 0 n s.
Proof. induction pre as [|a pre IH]; cbn [String.length append substring]; auto. Qed.

Lemma substring_prefix (body post : string) :
  substring 0 (String.length body) (body ++ post) = body.
Proof.
  induction body as [|a body IH]; cbn [String.length append].
  - destruct post; reflexivity.
  - cbn [substring]. now rewrite IH.
Qed.

(** Python's test for a missing delimiter is exactly [has_delimiters]. *)
Lemma delimiter_guard (text : string) :
  ((find text "{" =? -1) || (rfind text "}" + 1 =? 0)) = negb (has_delimiters text).
Proof.
  unfold has_delimiters, find, rfind.
  destruct (occurs "{" text) eqn:Ho.
  - pose proof (find_from_present "{" text 0 Ho) as Hf.
    destruct (occurs "}" text) eqn:Hc.
    + pose proof (rfind_from_present "}" text 0 (-1) Hc) as Hr.
      cbn [andb negb]. apply orb_false_intro; apply Z.eqb_neq; lia.
    + rewrite (rfind_from_absent "}" text 0 (-1) Hc). cbn [andb negb].
      apply orb_true_intro. now right.
  - rewrite (find_from_absent "{" text 0 Ho). reflexivity.
Qed.

Lemma substring_nothing (n : nat) (s : string) : substring n 0 s = EmptyString.
Proof.
  revert n. induction s as [|a s IH]; intros [|n]; cbn [substring]; auto.
Qed.

(** When the last "}" comes before the first "{" the slice is empty: what
    [json.loads] is then given is the empty text. *)
Remark json_slice_misordered (text : string) :
  rfind text "}" < find text "{" -> json_slice text = EmptyString.
Proof.
  intros H. unfold json_slice, slice.
  match goal with
  | |- substring _ ?m _ = _ => replace m with 0%nat; [apply substring_nothing|]
  end.
  pose proof (strlen_nonneg text).
  pose proof (rfind_from_bounds "}" text 0 (-1)) as B. fold (rfind text "}") in B.
  unfold slice_bound.
  destruct (Z.ltb_spec (find text "{") 0), (Z.ltb_spec (rfind text "}" + 1) 0); lia.
Qed.

(** Whatever precedes the first "{" and follows the last "}" is cut away. *)
Lemma json_slice_noise (pre mid post : string) :
  occurs "{" pre = false ->
  occurs "}" post = false ->
  json_slice (pre ++ String "{" (mid ++ String "}" post)) = String "{" (mid ++ String "}" EmptyString).
Proof.
  intros Hpre Hpost. unfold json_slice, find, rfind.
  rewrite find_from_app by assumption.
  replace (pre ++ String "{" (mid ++ String "}" post))
    with ((pre ++ String "{" mid) ++ String "}" post)
    by (rewrite append_assoc; reflexivity).
  rewrite rfind_from_app by assumption.
  unfold slice.
  set (text := (pre ++ String "{" mid) ++ String "}" post).
  assert (Hlen : strlen text = strlen pre + strlen mid + strlen post + 2)
    by (unfold text; repeat (rewrite strlen_app || rewrite strlen_cons); lia).
  assert (Hmid : strlen (pre ++ String "{" mid) = strlen pre + strlen mid + 1)
    by (repeat (rewrite strlen_app || rewrite strlen_cons); lia).
  assert (Hbody : Z.of_nat (String.length (String "{" (mid ++ String "}" EmptyString)))
                  = strlen mid + 2).
  { change (strlen (String "{" (mid ++ String "}" EmptyString)) = strlen mid + 2).
    rewrite strlen_cons, strlen_app, strlen_cons. unfold strlen at 2. simpl. lia. }
  pose proof (strlen_nonneg pre). pose proof (strlen_nonneg mid).
  pose proof (strlen_nonneg post).
  rewrite Hlen, Hmid. unfold slice_bound.
  destruct (Z.ltb_spec (0 + strlen pre) 0); [lia|].
  destruct (Z.ltb_spec (0 + (strlen pre + strlen mid + 1) + 1) 0); [lia|].
  rewrite !Z.min_l by lia.
  match goal with
  | |- substring ?a ?b _ = _ =>
      replace a with (String.length pre) by (unfold strlen; lia);
      replace b with (String.length (String "{" (mid ++ String "}" EmptyString))) by lia
  end.
  unfold text.
  rewrite append_assoc. cbn [append].
  rewrite substring_skip.
  replace (String "{" (mid ++ String "}" post))
    with (String "{" (mid ++ String "}" EmptyString) ++ post).
  - apply substring_prefix.
  - cbn [append]. rewrite append_assoc. reflexivity.
Qed.

(* ===================================================================== *)
(** ** Facts about the two routines                                      *)
(* ===================================================================== *)

Lemma has_delimiters_false (text : string) :
  has_delimiters text = false <-> occurs "{" text = false \/ occurs "}" text = false.
Proof. unfold has_delimiters. apply andb_false_iff. Qed.

(** A field of a model either takes a value or fails the whole model. *)
Lemma field_cases {A} (validate : pyval -> option A) (model : string)
    (kwargs : dict) (name : string) :
  field validate model kwargs name = validation_error model \/
  exists a v, lookup kwargs name = Some v /\ validate v = Some a /\
              field validate model kwargs name = ret a.
Proof.
  unfold field. destruct (lookup kwargs name) as [v|]; [|now left].
  destruct (validate v) as [a|] eqn:E; [|now left].
  right. now exists a, v.
Qed.

Ltac step_field :=
  match goal with
  | |- context [field ?val ?m ?kw ?n] =>
      let E := fresh "E" in
      destruct (field_cases val m kw n) as [E | (? & ? & _ & _ & E)];
      rewrite E; cbn [bind ret raise validation_error]; try reflexivity
  end.

Lemma field_supplied {A} (validate : pyval -> option A) (model : string)
    (kwargs : dict) (name : string) (v : pyval) (a : A) :
  lookup kwargs name = Some v -> validate v = Some a ->
  field validate model kwargs name = ret a.
Proof. intros Hl Hv. unfold field. now rewrite Hl, Hv. Qed.

Lemma field_unsupplied (w : World) (obj : dict) (name : string) (t : annotation)
    (model : string) :
  supplies w obj (name, t) = false ->
  match t with
  | TBool => field (validate_bool w) model obj name = validation_error model
  | TStr => field (validate_str w) model obj name = validation_error model
  | TFloat => field (validate_float w) model obj name = validation_error model
  end.
Proof.
  unfold supplies, accepts, field. cbn [fst snd].
  destruct (lookup obj name) as [v|]; [|destruct t; reflexivity].
  destruct t; intros H.
  - destruct (validate_bool w v); [discriminate | reflexivity].
  - destruct (validate_str w v); [discriminate | reflexivity].
  - destruct (validate_float w v); [discriminate | reflexivity].
Qed.

Section ValidatorFacts.
Import InputValidator.

Lemma validator_parse_no_delimiters (w : World) (text : string) :
  has_delimiters text = false -> parse_response w text = raise no_json_object.
Proof. intros H. unfold parse_response. now rewrite delimiter_guard, H. Qed.

Lemma validator_parse_delimited (w : World) (text : string) :
  has_delimiters text = true ->
  parse_response w text =
    (parsed_json <- json_loads w (json_slice text) ;; ValidationResult_init w parsed_json).
Proof. intros H. unfold parse_response. now rewrite delimiter_guard, H. Qed.

Lemma validator_init_mismatch (w : World) (obj : dict) (f : string * annotation) :
  In f ValidationResult_fields -> supplies w obj f = false ->
  ValidationResult_init w (VDict obj) = validation_error "ValidationResult".
Proof.
  intros [<- | []] H. apply (field_unsupplied w obj _ _ "ValidationResult") in H.
  unfold ValidationResult_init. cbn [kwargs_of bind ret]. now rewrite H.
Qed.

Lemma validator_parse_mismatch (w : World) (text : string) :
  has_delimiters text = true ->
  schema_mismatch w ValidationResult_fields text ->
  exists e, parse_response w text = raise e /\ schema_error w text e.
Proof.
  intros Hd [[e He] | (obj & Ho & f & Hin & Hs)]; rewrite validator_parse_delimited by assumption.
  - exists e. rewrite He. split; [reflexivity | now left].
  - rewrite Ho. cbn [bind ret]. rewrite (validator_init_mismatch w obj f Hin Hs).
    eexists. split; [reflexivity | now right].
Qed.

(** The routine never raises: what its [try] block raises it turns into
    [False]. *)
Lemma validate_total (w : World) (doc : bytes) :
  validate_bank_statement w doc =
    ret (match validate_try w doc with inr b => b | inl _ => false end).
Proof. unfold validate_bank_statement, try_except. now destruct (validate_try w doc). Qed.

Lemma validate_raised (w : World) (doc : bytes) (e : exn) :
  validate_try w doc = raise e -> validate_bank_statement w doc = ret false.
Proof. intros H. now rewrite validate_total, H. Qed.

Lemma validate_returned (w : World) (doc : bytes) (b : bool) :
  validate_try w doc = ret b -> validate_bank_statement w doc = ret b.
Proof. intros H. now rewrite validate_total, H. Qed.

Lemma validate_try_parse (w : World) (doc : bytes) (text : string) :
  agent w doc = ret text ->
  validate_try w doc = (r <- parse_response w text ;; ret (is_bank_statement r)).
Proof. intros H. unfold validate_try. now rewrite H. Qed.

(** Once the document is fetched the handler returns the three-field
    envelope with the routine's verdict. *)
Lemma validator_handler_fetched (w : World) (event : dict) (bucket key : pyval) (doc : bytes) :
  validator_fetched w event bucket key doc ->
  handler w event =
    ret (VDict [("bucket", bucket); ("key", key);
                ("valid", VBool (match validate_try w doc with inr b => b | inl _ => false end))]).
Proof.
  intros (Hl & Hb & Hk & Hs).
  unfold handler, handler_try. rewrite Hl. cbn [bind ret fst snd].
  rewrite Hb, Hk. cbn [negb orb]. rewrite Hs. cbn [bind ret].
  rewrite validate_total. reflexivity.
Qed.

(** Whatever its [try] block raises, the handler returns the 500 envelope. *)
Lemma validator_handler_raised (w : World) (event : dict) (e : exn) :
  handler_try w event = raise e -> handler w event = ret (validator_error_envelope e).
Proof. intros H. unfold handler. now rewrite H. Qed.

Lemma validator_handler_total (w : World) (event : dict) : returns (handler w event).
Proof.
  unfold returns, handler, try_except.
  destruct (handler_try w event); eexists; reflexivity.
Qed.

(** The handler returns one of its two envelopes. *)
Lemma validator_handler_shapes (w : World) (event : dict) :
  (exists e, handler_try w event = raise e /\
             handler w event = ret (validator_error_envelope e)) \/
  (exists bucket key b,
     locate event = ret (bucket, key) /\
     handler w event = ret (VDict [("bucket", bucket); ("key", key); ("valid", VBool b)])).
Proof.
  unfold handler. destruct (handler_try w event) as [e|v] eqn:E.
  - left. now exists e.
  - right. unfold handler_try in E.
    destruct (locate event) as [e|[bucket key]]; [discriminate|].
    cbn [bind ret fst snd] in E.
    destruct (negb (truthy bucket) || negb (truthy key)); [discriminate|].
    destruct (s3_get_object w bucket key) as [e|doc]; [discriminate|].
    cbn [bind] in E. rewrite validate_total in E. cbn [bind ret] in E.
    injection E as <-. now eexists bucket, key, _.
Qed.

End ValidatorFacts.

Section ExtractorFacts.
Import Extractor.

Lemma extractor_parse_no_delimiters (w : World) (text : string) :
  has_delimiters text = false -> parse_response w text = raise no_json_object.
Proof. intros H. unfold parse_response. now rewrite delimiter_guard, H. Qed.

Lemma extractor_parse_delimited (w : World) (text : string) :
  has_delimiters text = true ->
  parse_response w text =
    (parsed_json <- json_loads w (json_slice text) ;; BankStatementData_init w parsed_json).
Proof. intros H. unfold parse_response. now rewrite delimiter_guard, H. Qed.

(** One field that is missing or rejected fails the whole model, whichever
    field it is. *)
Lemma extractor_init_mismatch (w : World) (obj : dict) (f : string * annotation) :
  In f BankStatementData_fields -> supplies w obj f = false ->
  BankStatementData_init w (VDict obj) = validation_error "BankStatementData".
Proof.
  intros Hin H. unfold BankStatementData_init. cbn [kwargs_of bind ret].
  cbn [BankStatementData_fields In] in Hin.
  destruct Hin as [<- | [<- | [<- | [<- | [<- | [<- | []]]]]]];
    apply (field_unsupplied w obj _ _ "BankStatementData") in H;
    repeat (rewrite H; cbn [bind ret raise validation_error]; try reflexivity);
    repeat (step_field;
            repeat (rewrite H; cbn [bind ret raise validation_error]; try reflexivity)).
Qed.

Lemma extractor_init_supplied (w : World) (obj : dict)
    (v1 v2 v3 v4 v5 v6 : pyval) (r : BankStatementData) :
  lookup obj "BankName" = Some v1 -> validate_str w v1 = Some (BankName r) ->
  lookup obj "AccountNumber" = Some v2 -> validate_str w v2 = Some (AccountNumber r) ->
  lookup obj "OpeningBalance" = Some v3 -> validate_float w v3 = Some (OpeningBalance r) ->
  lookup obj "ClosingBalance" = Some v4 -> validate_float w v4 = Some (ClosingBalance r) ->
  lookup obj "StartDate" = Some v5 -> validate_str w v5 = Some (StartDate r) ->
  lookup obj "EndDate" = Some v6 -> validate_str w v6 = Some (EndDate r) ->
  BankStatementData_init w (VDict obj) = ret r.
Proof.
  intros L1 V1 L2 V2 L3 V3 L4 V4 L5 V5 L6 V6.
  unfold BankStatementData_init. cbn [kwargs_of bind ret].
  rewrite (field_supplied _ _ _ _ _ _ L1 V1). cbn [bind ret].
  rewrite (field_supplied _ _ _ _ _ _ L2 V2). cbn [bind ret].
  rewrite (field_supplied _ _ _ _ _ _ L3 V3). cbn [bind ret].
  rewrite (field_supplied _ _ _ _ _ _ L4 V4). cbn [bind ret].
  rewrite (field_supplied _ _ _ _ _ _ L5 V5). cbn [bind ret].
  rewrite (field_supplied _ _ _ _ _ _ L6 V6). cbn [bind ret].
  now destruct r.
Qed.

Lemma extractor_parse_mismatch (w : World) (text : string) :
  has_delimiters text = true ->
  schema_mismatch w BankStatementData_fields text ->
  exists e, parse_response w text = raise e /\ schema_error w text e.
Proof.
  intros Hd [[e He] | (obj & Ho & f & Hin & Hs)]; rewrite extractor_parse_delimited by assumption.
  - exists e. rewrite He. split; [reflexivity | now left].
  - rewrite Ho. cbn [bind ret]. rewrite (extractor_init_mismatch w obj f Hin Hs).
    eexists. split; [reflexivity | now right].
Qed.

(** The routine never raises: what its [try] block raises it turns into
    the empty dict. *)
Lemma extract_total (w : World) (doc : bytes) :
  extract_bank_statement_data w doc =
    ret (match extract_try w doc with inr d => d | inl _ => VDict [] end).
Proof.
  unfold extract_bank_statement_data, try_except. now destruct (extract_try w doc).
Qed.

Lemma extract_raised (w : World) (doc : bytes) (e : exn) :
  extract_try w doc = raise e -> extract_bank_statement_data w doc = ret (VDict []).
Proof. intros H. now rewrite extract_total, H. Qed.

Lemma extract_try_parse (w : World) (doc : bytes) (text : string) :
  agent w doc = ret text ->
  extract_try w doc = (r <- parse_response w text ;; ret (model_dump r)).
Proof. intros H. unfold extract_try. now rewrite H. Qed.

(** All or nothing: the routine returns the empty dict or the dump of a
    whole record. *)
Lemma extract_shapes (w : World) (doc : bytes) :
  extract_bank_statement_data w doc = ret (VDict []) \/
  exists r, extract_bank_statement_data w doc = ret (model_dump r).
Proof.
  rewrite extract_total. unfold extract_try.
  destruct (agent w doc) as [e|text]; [now left|]. cbn [bind].
  destruct (parse_response w text) as [e|r]; [now left|].
  right. now exists r.
Qed.

Lemma next_retry_count_ok (event : dict) :
  retry_count_ok event ->
  next_retry_count event = ret (VInt (retry_count_in event + 1)).
Proof.
  unfold next_retry_count, retry_count_in, get_default.
  intros [H | [n H]]; rewrite H; reflexivity.
Qed.

Lemma extractor_handler_raised (w : World) (event : dict) (e : exn) :
  retry_count_ok event ->
  handler_try w event = raise e ->
  handler w event = ret (failure_envelope event e).
Proof.
  intros Hr H. unfold handler. rewrite H. cbn [try_except raise].
  now rewrite next_retry_count_ok.
Qed.

Lemma extractor_handler_try_fetched (w : World) (event : dict) (bucket key : pyval) (doc : bytes) :
  retry_count_ok event ->
  extractor_fetched w event bucket key doc ->
  handler_try w event =
    ret (result_envelope event bucket key
           (match extract_try w doc with inr d => d | inl _ => VDict [] end)).
Proof.
  intros Hr (Hb & Hk & Hs). unfold handler_try, getitem.
  rewrite Hb, Hk. cbn [bind ret]. rewrite Hs. cbn [bind ret].
  rewrite extract_total. cbn [bind ret].
  now rewrite next_retry_count_ok.
Qed.

Lemma extractor_handler_fetched (w : World) (event : dict) (bucket key : pyval) (doc : bytes) :
  retry_count_ok event ->
  extractor_fetched w event bucket key doc ->
  handler w event =
    ret (result_envelope event bucket key
           (match extract_try w doc with inr d => d | inl _ => VDict [] end)).
Proof.
  intros Hr Hf. unfold handler. now rewrite (extractor_handler_try_fetched w event bucket key doc).
Qed.

(** With a well-typed counter the handler returns one of its two
    envelopes. *)
Lemma extractor_handler_shapes (w : World) (event : dict) :
  retry_count_ok event ->
  (exists e, handler_try w event = raise e /\
             handler w event = ret (failure_envelope event e)) \/
  (exists bucket key doc,
     extractor_fetched w event bucket key doc /\
     handler w event =
       ret (result_envelope event bucket key
              (match extract_try w doc with inr d => d | inl _ => VDict [] end))).
Proof.
  intros Hr. destruct (handler_try w event) as [e|v] eqn:E.
  - left. exists e. split; [reflexivity | now apply extractor_handler_raised].
  - right. unfold handler_try, getitem in E.
    destruct (lookup event "bucket") as [bucket|] eqn:Hb; [|discriminate].
    destruct (lookup event "key") as [key|] eqn:Hk; [|discriminate].
    cbn [bind ret] in E.
    destruct (s3_get_object w bucket key) as [e|doc] eqn:Hs; [discriminate|].
    exists bucket, key, doc. split; [now repeat split|].
    now apply extractor_handler_fetched.
Qed.

End ExtractorFacts.

(** Every envelope the Extractor's handler can return, whatever the type of
    the incoming counter. *)
Lemma extractor_envelopes (w : World) (event : dict) (out : pyval) :
  Extractor.handler w event = ret out ->
  (exists e rc,
     Extractor.handler_try w event = raise e /\
     out = VDict [("bucket", get event "bucket"); ("key", get event "key");
                  ("valid", VBool false); ("extracted_data", VDict []);
                  ("retry_count", rc); ("error", VStr (exn_str e))]) \/
  (exists bucket key data rc,
     lookup event "bucket" = Some bucket /\
     lookup event "key" = Some key /\
     (data = VDict [] \/ exists r, data = Extractor.model_dump r) /\
     out = VDict [("bucket", bucket); ("key", key);
                  ("valid", VBool (truthy data)); ("extracted_data", data);
                  ("retry_count", rc)]).
Proof.
  unfold Extractor.handler. intros H.
  destruct (Extractor.handler_try w event) as [e|v] eqn:E; cbn [try_except] in H.
  - left. destruct (Extractor.next_retry_count event) as [e'|rc]; [discriminate|].
    cbn [bind ret] in H. injection H as <-. now exists e, rc.
  - right. injection H as <-. unfold Extractor.handler_try, getitem in E.
    destruct (lookup event "bucket") as [bucket|]; [|discriminate].
    destruct (lookup event "key") as [key|]; [|discriminate].
    cbn [bind ret] in E.
    destruct (s3_get_object w bucket key) as [e|doc]; [discriminate|].
    cbn [bind] in E.
    destruct (extract_shapes w doc) as [S | [r S]];
      rewrite S in E; cbn [bind ret] in E;
      (destruct (Extractor.next_retry_count event) as [e'|rc]; [discriminate|]);
      cbn [bind ret] in E; injection E as <-.
    + exists bucket, key, (VDict []), rc. repeat split. now left.
    + exists bucket, key, (Extractor.model_dump r), rc. repeat split. right. now exists r.
Qed.

(** A fault past the fetch makes the Extractor's routine return [{}]. *)
Lemma extractor_fault_empties (w : World) (doc : bytes) :
  (exists e, agent w doc = raise e) \/
  (exists text, agent w doc = ret text /\ has_delimiters text = false) \/
  (exists text, agent w doc = ret text /\ has_delimiters text = true /\
                schema_mismatch w BankStatementData_fields text) ->
  exists e, Extractor.extract_try w doc = raise e.
Proof.
  intros [[e H] | [(text & H & Hd) | (text & H & Hd & Hm)]].
  - unfold Extractor.extract_try. rewrite H. now exists e.
  - rewrite (extract_try_parse w doc text H).
    rewrite extractor_parse_no_delimiters by assumption. now eexists.
  - rewrite (extract_try_parse w doc text H).
    destruct (extractor_parse_mismatch w text Hd Hm) as (e & -> & _). now exists e.
Qed.

(** A fault past the fetch makes the Validator's routine return [False]. *)
Lemma validator_fault_negates (w : World) (doc : bytes) :
  (exists e, agent w doc = raise e) \/
  (exists text, agent w doc = ret text /\ has_delimiters text = false) \/
  (exists text, agent w doc = ret text /\ has_delimiters text = true /\
                schema_mismatch w ValidationResult_fields text) ->
  exists e, InputValidator.validate_try w doc = raise e.
Proof.
  intros [[e H] | [(text & H & Hd) | (text & H & Hd & Hm)]].
  - unfold InputValidator.validate_try. rewrite H. now exists e.
  - rewrite (validate_try_parse w doc text H).
    rewrite validator_parse_no_delimiters by assumption. now eexists.
  - rewrite (validate_try_parse w doc text H).
    destruct (validator_parse_mismatch w text Hd Hm) as (e & -> & _). now exists e.
Qed.

(** What the Validator's handler returns for each kind of fault. *)
Lemma validator_fault_envelope (w : World) (event : dict) (f : fault) :
  validator_fault w event f ->
  match f with
  | ObjectStoreFault e =>
      InputValidator.handler w event = ret (validator_error_envelope e)
  | _ =>
      exists bucket key,
        InputValidator.locate event = ret (bucket, key) /\
        InputValidator.handler w event =
          ret (VDict [("bucket", bucket); ("key", key); ("valid", VBool false)])
  end.
Proof.
  intros H. destruct H as
    [bucket key e Hl Hb Hk Hs
    | bucket key doc e Hf Ha
    | bucket key doc text Hf Ha Hd
    | bucket key doc text Hf Ha Hd Hm
    | bucket key doc text obj v Hf Ha Hd Hj Hv Hn].
  - apply validator_handler_raised. unfold InputValidator.handler_try.
    rewrite Hl. cbn [bind ret fst snd]. rewrite Hb, Hk. cbn [negb orb]. now rewrite Hs.
  - exists bucket, key. split; [apply Hf|].
    rewrite (validator_handler_fetched w event bucket key doc Hf).
    destruct (validator_fault_negates w doc) as [e' ->]; [left; now exists e | reflexivity].
  - exists bucket, key. split; [apply Hf|].
    rewrite (validator_handler_fetched w event bucket key doc Hf).
    destruct (validator_fault_negates w doc) as [e' ->];
      [right; left; now exists text | reflexivity].
  - exists bucket, key. split; [apply Hf|].
    rewrite (validator_handler_fetched w event bucket key doc Hf).
    destruct (validator_fault_negates w doc) as [e' ->];
      [right; right; now exists text | reflexivity].
  - exists bucket, key. split; [apply Hf|].
    rewrite (validator_handler_fetched w event bucket key doc Hf).
    rewrite (validate_try_parse w doc text Ha).
    rewrite validator_parse_delimited by assumption.
    rewrite Hj. cbn [bind ret]. unfold InputValidator.ValidationResult_init.
    cbn [kwargs_of bind ret]. rewrite (field_supplied _ _ _ _ _ _ Hv Hn). reflexivity.
Qed.

(** What the Extractor's handler returns for each kind of fault. *)
Lemma extractor_fault_envelope (w : World) (event : dict) (f : fault) :
  retry_count_ok event ->
  extractor_fault w event f ->
  match f with
  | ObjectStoreFault e =>
      Extractor.handler w event = ret (failure_envelope event e)
  | _ =>
      exists bucket key,
        lookup event "bucket" = Some bucket /\
        lookup event "key" = Some key /\
        Extractor.handler w event =
          ret (VDict [("bucket", bucket); ("key", key); ("valid", VBool false);
                      ("extracted_data", VDict []);
                      ("retry_count", VInt (retry_count_in event + 1))])
  end.
Proof.
  intros Hr H. destruct H as
    [bucket key e Hb Hk Hs
    | bucket key doc e Hf Ha
    | bucket key doc text Hf Ha Hd
    | bucket key doc text Hf Ha Hd Hm].
  - apply extractor_handler_raised; [assumption|].
    unfold Extractor.handler_try, getitem. rewrite Hb, Hk. cbn [bind ret]. now rewrite Hs.
  - exists bucket, key. split; [apply Hf|]. split; [apply Hf|].
    rewrite (extractor_handler_fetched w event bucket key doc Hr Hf).
    destruct (extractor_fault_empties w doc) as [e' ->]; [left; now exists e | reflexivity].
  - exists bucket, key. split; [apply Hf|]. split; [apply Hf|].
    rewrite (extractor_handler_fetched w event bucket key doc Hr Hf).
    destruct (extractor_fault_empties w doc) as [e' ->];
      [right; left; now exists text | reflexivity].
  - exists bucket, key. split; [apply Hf|]. split; [apply Hf|].
    rewrite (extractor_handler_fetched w event bucket key doc Hr Hf).
    destruct (extractor_fault_empties w doc) as [e' ->];
      [right; right; now exists text | reflexivity].
Qed.

(* ===================================================================== *)
(** ** The contract of the two stages                                    *)
(* ===================================================================== *)

(** C1, counterexample.  The object store has no such document: a
    transport fault occurs in the Validator, and the envelope the handler
    returns is the 500 one, which has no [valid] field at all. *)
Lemma validator_store_fault_gives_no_verdict :
  validator_fault Stub.store_down Stub.step_event (ObjectStoreFault Stub.no_such_key) /\
  ~ valid_false (InputValidator.handler Stub.store_down Stub.step_event).
Proof.
  split.
  - apply (VF_store _ _ (VStr "statements") (VStr "uploads/june.pdf")); reflexivity.
  - intros (d & H & Hv). vm_compute in H. injection H as <-.
    vm_compute in Hv. discriminate.
Qed.

(** C1, as amended.  No fault of the four kinds leaves either stage as an
    exception.  The Validator's handler returns on every event; it answers
    an inference fault, a parse fault, a schema fault and a negative
    classification with [valid = False], and an object-store fault with the
    envelope [{statusCode: 500, error: message}].  The Extractor's handler,
    on an event whose [retry_count] is absent or an integer, answers every
    fault with [valid = False]. *)
Theorem faults_stop_at_the_stage_boundary :
  (forall w event, returns (InputValidator.handler w event)) /\
  (forall w event f,
     validator_fault w event f ->
     match f with
     | ObjectStoreFault e =>
         InputValidator.handler w event = ret (validator_error_envelope e)
     | _ => valid_false (InputValidator.handler w event)
     end) /\
  (forall w event f,
     retry_count_ok event ->
     extractor_fault w event f ->
     valid_false (Extractor.handler w event)).
Proof.
  split; [exact validator_handler_total|]. split.
  - intros w event f H. pose proof (validator_fault_envelope w event f H) as E.
    destruct f; try exact E;
      destruct E as (bucket & key & _ & ->); eexists; split; reflexivity.
  - intros w event f Hr H. pose proof (extractor_fault_envelope w event f Hr H) as E.
    destruct f;
      try (destruct E as (bucket & key & _ & _ & ->); eexists; split; reflexivity).
    rewrite E. eexists. split; reflexivity.
Qed.

(** C1 on two runs: an answer without JSON to the Validator, and a refused
    inference call in the Extractor. *)
Lemma faults_stop_at_the_stage_boundary_witness :
  (validator_fault (Stub.validator_world Stub.refusal) Stub.step_event ParseFault /\
   valid_false (InputValidator.handler (Stub.validator_world Stub.refusal) Stub.step_event)) /\
  (retry_count_ok Stub.retry_event /\
   extractor_fault Stub.inference_down Stub.retry_event (InferenceFault Stub.throttled) /\
   valid_false (Extractor.handler Stub.inference_down Stub.retry_event)).
Proof.
  assert (Hv : validator_fault (Stub.validator_world Stub.refusal) Stub.step_event ParseFault).
  { apply (VF_parse _ _ (VStr "statements") (VStr "uploads/june.pdf") Stub.pdf Stub.refusal);
      [repeat split | reflexivity | reflexivity]. }
  assert (Hr : retry_count_ok Stub.retry_event) by (right; exists 2; reflexivity).
  assert (He : extractor_fault Stub.inference_down Stub.retry_event
                 (InferenceFault Stub.throttled)).
  { apply (EF_inference _ _ (VStr "statements") (VStr "uploads/june.pdf") Stub.pdf);
      [repeat split | reflexivity]. }
  split.
  - split; [exact Hv|].
    exact (proj1 (proj2 faults_stop_at_the_stage_boundary) _ _ ParseFault Hv).
  - split; [exact Hr|]. split; [exact He|].
    exact (proj2 (proj2 faults_stop_at_the_stage_boundary) _ _ _ Hr He).
Defined.

(** C2.  On every invocation of the Extractor's handler with an event whose
    [retry_count] is absent or an integer, whether the [try] block returns
    or raises, the [retry_count] of the output is the incoming one plus 1, a
    missing one counting as 0. *)
Theorem extractor_counts_every_attempt (w : World) (event : dict) :
  retry_count_ok event ->
  exists d,
    Extractor.handler w event = ret (VDict d) /\
    lookup d "retry_count" = Some (VInt (retry_count_in event + 1)).
Proof.
  intros Hr.
  destruct (extractor_handler_shapes w event Hr)
    as [(e & _ & ->) | (bucket & key & doc & _ & ->)];
    eexists; split; reflexivity.
Qed.

(** C2 on two runs: a third attempt that succeeds, and a first attempt on
    an event without [key]. *)
Lemma extractor_counts_every_attempt_witness :
  (retry_count_ok Stub.retry_event /\
   exists d,
     Extractor.handler (Stub.extractor_world Stub.statement_json) Stub.retry_event
       = ret (VDict d) /\
     lookup d "retry_count" = Some (VInt 3)) /\
  (retry_count_ok Stub.keyless_event /\
   exists d,
     Extractor.handler Stub.inference_down Stub.keyless_event = ret (VDict d) /\
     lookup d "retry_count" = Some (VInt 1)).
Proof.
  split.
  - assert (Hr : retry_count_ok Stub.retry_event) by (right; exists 2; reflexivity).
    split; [exact Hr|].
    exact (extractor_counts_every_attempt
             (Stub.extractor_world Stub.statement_json) Stub.retry_event Hr).
  - assert (Hr : retry_count_ok Stub.keyless_event) by (left; reflexivity).
    split; [exact Hr|].
    exact (extractor_counts_every_attempt Stub.inference_down Stub.keyless_event Hr).
Defined.

(** C3.  In every envelope the Extractor's handler returns, [valid] is a
    boolean; [valid = False] comes with [extracted_data = {}], and
    [valid = True] only with the dump of a whole record, which is not
    empty.  An envelope of the Validator's handler carries no data. *)
Theorem invalid_result_carries_no_data :
  (forall w event d,
     Extractor.handler w event = ret (VDict d) ->
     (exists b, lookup d "valid" = Some (VBool b)) /\
     (lookup d "valid" = Some (VBool false) ->
      lookup d "extracted_data" = Some (VDict [])) /\
     (lookup d "valid" = Some (VBool true) ->
      exists r, lookup d "extracted_data" = Some (Extractor.model_dump r) /\
                truthy (Extractor.model_dump r) = true)) /\
  (forall w event d,
     InputValidator.handler w event = ret (VDict d) ->
     lookup d "extracted_data" = None /\ lookup d "data" = None).
Proof.
  split.
  - intros w event d H.
    destruct (extractor_envelopes w event _ H)
      as [(e & rc & _ & E) | (bucket & key & data & rc & _ & _ & Hd & E)];
      injection E as ->.
    + split; [now exists false|]. split; [reflexivity | discriminate].
    + destruct Hd as [-> | [r ->]].
      * split; [now exists false|]. split; [reflexivity | discriminate].
      * split; [now exists true|]. split; [discriminate|].
        intros _. now exists r.
  - intros w event d H.
    destruct (validator_handler_shapes w event)
      as [(e & _ & E) | (bucket & key & b & _ & E)];
      rewrite E in H; injection H as <-; split; reflexivity.
Qed.

(** C3 on two runs: an answer without [ClosingBalance] to the Extractor,
    and a negative answer to the Validator. *)
Lemma invalid_result_carries_no_data_witness :
  (exists d,
     Extractor.handler (Stub.extractor_world Stub.partial_json) Stub.retry_event
       = ret (VDict d) /\
     lookup d "valid" = Some (VBool false) /\
     lookup d "extracted_data" = Some (VDict [])) /\
  (exists d,
     InputValidator.handler (Stub.validator_world Stub.noisy_answer) Stub.step_event
       = ret (VDict d) /\
     lookup d "extracted_data" = None /\ lookup d "data" = None).
Proof.
  split.
  - eexists. split; [reflexivity|]. split; [reflexivity|].
    apply (proj1 (proj2 (proj1 invalid_result_carries_no_data
             (Stub.extractor_world Stub.partial_json) Stub.retry_event _ eq_refl))).
    reflexivity.
  - eexists. split; [reflexivity|].
    exact (proj2 invalid_result_carries_no_data
             (Stub.validator_world Stub.noisy_answer) Stub.step_event _ eq_refl).
Defined.

(** C4.  When the raw answer has no "{" or no "}", the parsing of both
    stages fails with the "No JSON object found" [ValueError]; the
    Validator's routine then returns [False] and the Extractor's routine
    the empty dict, and a handler that fetched the document returns
    [valid = False]. *)
Theorem missing_delimiter_fails_the_parse (w : World) (text : string) :
  occurs "{" text = false \/ occurs "}" text = false ->
  InputValidator.parse_response w text = raise no_json_object /\
  Extractor.parse_response w text = raise no_json_object /\
  forall doc,
    agent w doc = ret text ->
    InputValidator.validate_bank_statement w doc = ret false /\
    Extractor.extract_bank_statement_data w doc = ret (VDict []) /\
    (forall event bucket key,
       validator_fetched w event bucket key doc ->
       InputValidator.handler w event
         = ret (VDict [("bucket", bucket); ("key", key); ("valid", VBool false)])) /\
    (forall event bucket key,
       retry_count_ok event ->
       extractor_fetched w event bucket key doc ->
       Extractor.handler w event
         = ret (VDict [("bucket", bucket); ("key", key); ("valid", VBool false);
                       ("extracted_data", VDict []);
                       ("retry_count", VInt (retry_count_in event + 1))])).
Proof.
  intros H. apply has_delimiters_false in H.
  split; [now apply validator_parse_no_delimiters|].
  split; [now apply extractor_parse_no_delimiters|].
  intros doc Ha.
  assert (Tv : InputValidator.validate_try w doc = raise no_json_object).
  { rewrite (validate_try_parse w doc text Ha).
    now rewrite validator_parse_no_delimiters. }
  assert (Te : Extractor.extract_try w doc = raise no_json_object).
  { rewrite (extract_try_parse w doc text Ha).
    now rewrite extractor_parse_no_delimiters. }
  split; [exact (validate_raised w doc no_json_object Tv)|].
  split; [exact (extract_raised w doc no_json_object Te)|].
  split.
  - intros event bucket key Hf.
    rewrite (validator_handler_fetched w event bucket key doc Hf). now rewrite Tv.
  - intros event bucket key Hr Hf.
    rewrite (extractor_handler_fetched w event bucket key doc Hr Hf). now rewrite Te.
Qed.

(** C4 on an answer that is a plain sentence. *)
Lemma missing_delimiter_fails_the_parse_witness :
  InputValidator.validate_bank_statement (Stub.validator_world Stub.refusal) Stub.pdf
    = ret false /\
  Extractor.extract_bank_statement_data (Stub.validator_world Stub.refusal) Stub.pdf
    = ret (VDict []) /\
  InputValidator.handler (Stub.validator_world Stub.refusal) Stub.step_event
    = ret (VDict [("bucket", VStr "statements"); ("key", VStr "uploads/june.pdf");
                  ("valid", VBool false)]).
Proof.
  pose proof (proj2 (proj2 (missing_delimiter_fails_the_parse
           (Stub.validator_world Stub.refusal) Stub.refusal (or_introl eq_refl)))
           Stub.pdf eq_refl) as (Hv & He & Hh & _).
  split; [exact Hv|]. split; [exact He|].
  apply Hh. repeat split.
Defined.

(** The Extractor's [try] block returns only the dump of a record built
    from a decoded object. *)
Lemma extract_try_returned (w : World) (doc : bytes) (data : pyval) :
  Extractor.extract_try w doc = ret data ->
  exists text obj r,
    agent w doc = ret text /\
    has_delimiters text = true /\
    json_loads w (json_slice text) = ret (VDict obj) /\
    Extractor.BankStatementData_init w (VDict obj) = ret r /\
    data = Extractor.model_dump r.
Proof.
  unfold Extractor.extract_try.
  destruct (agent w doc) as [e|text] eqn:Ha; [discriminate|]. cbn [bind].
  destruct (has_delimiters text) eqn:Hd.
  2:{ now rewrite extractor_parse_no_delimiters. }
  rewrite extractor_parse_delimited by assumption.
  destruct (json_loads w (json_slice text)) as [e|parsed] eqn:Hj; [discriminate|].
  cbn [bind].
  destruct parsed as [| | | | | |obj];
    try (unfold Extractor.BankStatementData_init; discriminate).
  destruct (Extractor.BankStatementData_init w (VDict obj)) as [e|r] eqn:Hi; [discriminate|].
  cbn [bind ret]. intros H. injection H as <-.
  now exists text, obj, r.
Qed.

(** A JSON number passes the validator of a [float] field as the float it
    denotes, whatever the world. *)
Lemma json_number_validates (w : World) (v : pyval) (f : float) :
  json_number v f -> validate_float w v = Some f.
Proof.
  intros [f' | z f' H]; cbn [validate_float]; [reflexivity | now rewrite H].
Qed.

(** What no conversion saves is rejected, whatever the world. *)
Lemma rejected_outright_sound (w : World) (t : annotation) (v : pyval) :
  rejected_outright t v = true -> accepts w t v = false.
Proof.
  destruct v as [| b | z | f | s | l | d], t; cbn; try discriminate; try reflexivity.
  destruct (z =? 0); [discriminate|]. destruct (z =? 1); [discriminate | reflexivity].
Qed.

(** The record the model is built into holds, field by field, what the
    validators made of the object's values. *)
Lemma extractor_init_inversion (w : World) (obj : dict) (r : Extractor.BankStatementData) :
  Extractor.BankStatementData_init w (VDict obj) = ret r ->
  exists v1 v2 v3 v4 v5 v6,
    (lookup obj "BankName" = Some v1 /\ validate_str w v1 = Some (Extractor.BankName r)) /\
    (lookup obj "AccountNumber" = Some v2 /\
     validate_str w v2 = Some (Extractor.AccountNumber r)) /\
    (lookup obj "OpeningBalance" = Some v3 /\
     validate_float w v3 = Some (Extractor.OpeningBalance r)) /\
    (lookup obj "ClosingBalance" = Some v4 /\
     validate_float w v4 = Some (Extractor.ClosingBalance r)) /\
    (lookup obj "StartDate" = Some v5 /\ validate_str w v5 = Some (Extractor.StartDate r)) /\
    (lookup obj "EndDate" = Some v6 /\ validate_str w v6 = Some (Extractor.EndDate r)).
Proof.
  unfold Extractor.BankStatementData_init. cbn [kwargs_of bind ret].
  destruct (field_cases (validate_str w) "BankStatementData" obj "BankName")
    as [E | (a1 & v1 & L1 & V1 & E)]; rewrite E; [discriminate|]. cbn [bind ret].
  destruct (field_cases (validate_str w) "BankStatementData" obj "AccountNumber")
    as [E2 | (a2 & v2 & L2 & V2 & E2)]; rewrite E2; [discriminate|]. cbn [bind ret].
  destruct (field_cases (validate_float w) "BankStatementData" obj "OpeningBalance")
    as [E3 | (a3 & v3 & L3 & V3 & E3)]; rewrite E3; [discriminate|]. cbn [bind ret].
  destruct (field_cases (validate_float w) "BankStatementData" obj "ClosingBalance")
    as [E4 | (a4 & v4 & L4 & V4 & E4)]; rewrite E4; [discriminate|]. cbn [bind ret].
  destruct (field_cases (validate_str w) "BankStatementData" obj "StartDate")
    as [E5 | (a5 & v5 & L5 & V5 & E5)]; rewrite E5; [discriminate|]. cbn [bind ret].
  destruct (field_cases (validate_str w) "BankStatementData" obj "EndDate")
    as [E6 | (a6 & v6 & L6 & V6 & E6)]; rewrite E6; [discriminate|]. cbn [bind ret].
  intros H. injection H as <-. cbn.
  exists v1, v2, v3, v4, v5, v6. repeat split; assumption.
Qed.

(** C5.  When the text from the first "{" to the last "}" of the raw answer
    decodes to a JSON object that holds every field of the schema with a
    value of the right type, the stage succeeds with exactly that record.
    The Validator returns the boolean of the object.  The Extractor returns
    the six fields with the object's values: its strings as they are, its
    numbers as floats (a float as it is, an integer as [float(z)]); keys the
    schema does not know are left out.  What precedes the first "{" and
    follows the last "}" plays no part. *)
Theorem embedded_object_is_returned :
  (forall pre mid post,
     occurs "{" pre = false ->
     occurs "}" post = false ->
     json_slice (pre ++ String "{" (mid ++ String "}" post))
       = String "{" (mid ++ String "}" EmptyString)) /\
  (forall w text obj doc b,
     has_delimiters text = true ->
     json_loads w (json_slice text) = ret (VDict obj) ->
     lookup obj "is_bank_statement" = Some (VBool b) ->
     agent w doc = ret text ->
     InputValidator.validate_try w doc = ret b /\
     InputValidator.validate_bank_statement w doc = ret b /\
     forall event bucket key,
       validator_fetched w event bucket key doc ->
       InputValidator.handler w event
         = ret (VDict [("bucket", bucket); ("key", key); ("valid", VBool b)])) /\
  (forall w text obj doc bank_name account_number opening closing
          opening_balance closing_balance start_date end_date,
     has_delimiters text = true ->
     json_loads w (json_slice text) = ret (VDict obj) ->
     lookup obj "BankName" = Some (VStr bank_name) ->
     lookup obj "AccountNumber" = Some (VStr account_number) ->
     lookup obj "OpeningBalance" = Some opening ->
     json_number opening opening_balance ->
     lookup obj "ClosingBalance" = Some closing ->
     json_number closing closing_balance ->
     lookup obj "StartDate" = Some (VStr start_date) ->
     lookup obj "EndDate" = Some (VStr end_date) ->
     agent w doc = ret text ->
     Extractor.extract_bank_statement_data w doc
       = ret (VDict [("BankName", VStr bank_name);
                     ("AccountNumber", VStr account_number);
                     ("OpeningBalance", VFloat opening_balance);
                     ("ClosingBalance", VFloat closing_balance);
                     ("StartDate", VStr start_date);
                     ("EndDate", VStr end_date)]) /\
     forall event bucket key,
       retry_count_ok event ->
       extractor_fetched w event bucket key doc ->
       Extractor.handler w event
         = ret (VDict [("bucket", bucket); ("key", key); ("valid", VBool true);
                       ("extracted_data",
                        VDict [("BankName", VStr bank_name);
                               ("AccountNumber", VStr account_number);
                               ("OpeningBalance", VFloat opening_balance);
                               ("ClosingBalance", VFloat closing_balance);
                               ("StartDate", VStr start_date);
                               ("EndDate", VStr end_date)]);
                       ("retry_count", VInt (retry_count_in event + 1))])).
Proof.
  split; [exact json_slice_noise|]. split.
  - intros w text obj doc b Hd Hj Hb Ha.
    assert (T : InputValidator.validate_try w doc = ret b).
    { rewrite (validate_try_parse w doc text Ha).
      rewrite validator_parse_delimited by assumption.
      rewrite Hj. cbn [bind ret]. unfold InputValidator.ValidationResult_init.
      cbn [kwargs_of bind ret].
      now rewrite (field_supplied (validate_bool w) _ _ _ _ b Hb eq_refl). }
    split; [exact T|]. split; [now apply validate_returned|].
    intros event bucket key Hf.
    rewrite (validator_handler_fetched w event bucket key doc Hf). now rewrite T.
  - intros w text obj doc bn an vo vc ob cb sd ed Hd Hj L1 L2 L3 N3 L4 N4 L5 L6 Ha.
    pose (r := {| Extractor.BankName := bn; Extractor.AccountNumber := an;
                  Extractor.OpeningBalance := ob; Extractor.ClosingBalance := cb;
                  Extractor.StartDate := sd; Extractor.EndDate := ed |}).
    assert (T : Extractor.extract_try w doc
                = ret (VDict [("BankName", VStr bn); ("AccountNumber", VStr an);
                              ("OpeningBalance", VFloat ob); ("ClosingBalance", VFloat cb);
                              ("StartDate", VStr sd); ("EndDate", VStr ed)])).
    { rewrite (extract_try_parse w doc text Ha).
      rewrite extractor_parse_delimited by assumption.
      rewrite Hj. cbn [bind ret].
      rewrite (extractor_init_supplied w obj _ _ _ _ _ _ r
                 L1 eq_refl L2 eq_refl
                 L3 (json_number_validates w vo ob N3)
                 L4 (json_number_validates w vc cb N4)
                 L5 eq_refl L6 eq_refl).
      reflexivity. }
    split; [now rewrite extract_total, T|].
    intros event bucket key Hr Hf.
    rewrite (extractor_handler_fetched w event bucket key doc Hr Hf). now rewrite T.
Qed.

(** C5 on the answer "Sure! {...} Hope that helps." to the Validator, and,
    to the Extractor, on a statement wrapped in two sentences whose opening
    balance is the integer 100 and which has a key the schema does not
    know. *)
Lemma embedded_object_is_returned_witness :
  (json_slice Stub.noisy_answer = Stub.negative_json /\
   InputValidator.validate_try (Stub.validator_world Stub.noisy_answer) Stub.pdf = ret false /\
   InputValidator.handler (Stub.validator_world Stub.noisy_answer) Stub.step_event
     = ret (VDict [("bucket", VStr "statements"); ("key", VStr "uploads/june.pdf");
                   ("valid", VBool false)])) /\
  (json_loads (Cases.statements_world Cases.integer_answer)
     (json_slice Cases.integer_answer) = ret (VDict Cases.integer_statement) /\
   json_number (VInt 100) 100%float /\
   Extractor.handler (Cases.statements_world Cases.integer_answer) Stub.retry_event
     = ret (VDict [("bucket", VStr "statements"); ("key", VStr "uploads/june.pdf");
                   ("valid", VBool true);
                   ("extracted_data",
                    VDict [("BankName", VStr "First Bank");
                           ("AccountNumber", VStr "12-345");
                           ("OpeningBalance", VFloat 100%float);
                           ("ClosingBalance", VFloat 250.5%float);
                           ("StartDate", VStr "2024-01-01");
                           ("EndDate", VStr "2024-01-31")]);
                   ("retry_count", VInt 3)])).
Proof.
  split.
  - split.
    + exact (proj1 embedded_object_is_returned "Sure! "
               (Stub.q "is_bank_statement" ++ ": false") " Hope that helps."
               eq_refl eq_refl).
    + pose proof (proj1 (proj2 embedded_object_is_returned)
               (Stub.validator_world Stub.noisy_answer) Stub.noisy_answer
               [("is_bank_statement", VBool false)] Stub.pdf false
               eq_refl eq_refl eq_refl eq_refl) as (T & _ & H).
      split; [exact T|].
      apply H. repeat split.
  - assert (N : json_number (VInt 100) 100%float) by (apply number_int; reflexivity).
    split; [reflexivity|]. split; [exact N|].
    pose proof (proj2 (proj2 embedded_object_is_returned)
             (Cases.statements_world Cases.integer_answer) Cases.integer_answer
             Cases.integer_statement Stub.pdf
             "First Bank" "12-345" (VInt 100) (VFloat 250.5%float)
             100%float 250.5%float "2024-01-01" "2024-01-31"
             eq_refl eq_refl eq_refl eq_refl eq_refl N eq_refl
             (number_float 250.5%float) eq_refl eq_refl eq_refl)
      as (_ & H).
    apply (H Stub.retry_event (VStr "statements") (VStr "uploads/june.pdf")).
    + right. exists 2. reflexivity.
    + repeat split.
Defined.

(** C6, counterexample.  The model answers with the verdict as the text
    "yes": a string where the schema has a boolean.  pydantic converts it,
    the parsing succeeds, and the Validator returns [valid = True]. *)
Lemma affirmative_text_passes_for_a_boolean :
  json_loads Cases.affirmative_world (json_slice Cases.affirmative_json)
    = ret (VDict [("is_bank_statement", VStr "yes")]) /\
  has_json_type TBool (VStr "yes") = false /\
  InputValidator.parse_response Cases.affirmative_world Cases.affirmative_json
    = ret {| InputValidator.is_bank_statement := true |} /\
  InputValidator.handler Cases.affirmative_world Stub.step_event
    = ret (VDict [("bucket", VStr "statements"); ("key", VStr "uploads/june.pdf");
                  ("valid", VBool true)]).
Proof. repeat split. Qed.

(** C6, as amended.  When the sliced text is not JSON, or decodes to an
    object that lacks a field of the schema or holds a value the field's
    validator rejects, the parsing fails with the decoder's exception or
    pydantic's ValidationError, and the stage returns its failure result:
    the Validator's routine [False], the Extractor's routine the empty
    dict.  The validator rejects, whatever the world, [null], a list and an
    object for any field, anything but a string for a string field and an
    integer other than 0 and 1 for the boolean field; a value of another
    type that pydantic converts is accepted.  The Extractor's routine
    returns the empty dict or all six fields, each with what the validator
    made of the object's value, never part of a record. *)
Theorem schema_mismatch_yields_nothing :
  (forall w text doc,
     has_delimiters text = true ->
     schema_mismatch w ValidationResult_fields text ->
     agent w doc = ret text ->
     (exists e, InputValidator.parse_response w text = raise e /\ schema_error w text e) /\
     InputValidator.validate_bank_statement w doc = ret false) /\
  (forall w text doc,
     has_delimiters text = true ->
     schema_mismatch w BankStatementData_fields text ->
     agent w doc = ret text ->
     (exists e, Extractor.parse_response w text = raise e /\ schema_error w text e) /\
     Extractor.extract_bank_statement_data w doc = ret (VDict [])) /\
  (forall w obj name t,
     lookup obj name = None \/
     (exists v, lookup obj name = Some v /\ rejected_outright t v = true) ->
     supplies w obj (name, t) = false) /\
  (forall w doc,
     Extractor.extract_bank_statement_data w doc = ret (VDict []) \/
     exists text obj v1 v2 v3 v4 v5 v6
            bank_name account_number opening_balance closing_balance start_date end_date,
       agent w doc = ret text /\
       json_loads w (json_slice text) = ret (VDict obj) /\
       (lookup obj "BankName" = Some v1 /\ validate_str w v1 = Some bank_name) /\
       (lookup obj "AccountNumber" = Some v2 /\ validate_str w v2 = Some account_number) /\
       (lookup obj "OpeningBalance" = Some v3 /\ validate_float w v3 = Some opening_balance) /\
       (lookup obj "ClosingBalance" = Some v4 /\ validate_float w v4 = Some closing_balance) /\
       (lookup obj "StartDate" = Some v5 /\ validate_str w v5 = Some start_date) /\
       (lookup obj "EndDate" = Some v6 /\ validate_str w v6 = Some end_date) /\
       Extractor.extract_bank_statement_data w doc
         = ret (VDict [("BankName", VStr bank_name);
                       ("AccountNumber", VStr account_number);
                       ("OpeningBalance", VFloat opening_balance);
                       ("ClosingBalance", VFloat closing_balance);
                       ("StartDate", VStr start_date);
                       ("EndDate", VStr end_date)])).
Proof.
  split; [|split; [|split]].
  - intros w text doc Hd Hm Ha.
    split; [now apply validator_parse_mismatch|].
    destruct (validator_fault_negates w doc) as [e E];
      [right; right; now exists text|].
    exact (validate_raised w doc e E).
  - intros w text doc Hd Hm Ha.
    split; [now apply extractor_parse_mismatch|].
    destruct (extractor_fault_empties w doc) as [e E];
      [right; right; now exists text|].
    exact (extract_raised w doc e E).
  - intros w obj name t [H | (v & H & R)]; unfold supplies; cbn [fst snd]; rewrite H.
    + reflexivity.
    + now apply rejected_outright_sound.
  - intros w doc. rewrite extract_total.
    destruct (Extractor.extract_try w doc) as [e|data] eqn:T; [now left|]. right.
    destruct (extract_try_returned w doc data T) as (text & obj & r & Ha & _ & Hj & Hi & ->).
    destruct (extractor_init_inversion w obj r Hi)
      as (v1 & v2 & v3 & v4 & v5 & v6 & F1 & F2 & F3 & F4 & F5 & F6).
    exists text, obj, v1, v2, v3, v4, v5, v6.
    exists (Extractor.BankName r), (Extractor.AccountNumber r),
           (Extractor.OpeningBalance r), (Extractor.ClosingBalance r),
           (Extractor.StartDate r), (Extractor.EndDate r).
    repeat split; try tauto.
Qed.

(** C6 on an object without [is_bank_statement], on a statement without
    [ClosingBalance], and on a statement whose bank name is a number. *)
Lemma schema_mismatch_yields_nothing_witness :
  (schema_mismatch (Stub.validator_world Stub.misnamed_json)
     ValidationResult_fields Stub.misnamed_json /\
   InputValidator.validate_bank_statement
     (Stub.validator_world Stub.misnamed_json) Stub.pdf = ret false) /\
  (schema_mismatch (Stub.extractor_world Stub.partial_json)
     BankStatementData_fields Stub.partial_json /\
   Extractor.extract_bank_statement_data
     (Stub.extractor_world Stub.partial_json) Stub.pdf = ret (VDict [])) /\
  (rejected_outright TStr (VInt 7) = true /\
   schema_mismatch (Cases.statements_world Cases.numbered_bank_json)
     BankStatementData_fields Cases.numbered_bank_json /\
   Extractor.extract_bank_statement_data
     (Cases.statements_world Cases.numbered_bank_json) Stub.pdf = ret (VDict [])).
Proof.
  assert (Hv : schema_mismatch (Stub.validator_world Stub.misnamed_json)
                 ValidationResult_fields Stub.misnamed_json).
  { right. exists [("verdict", VBool true)]. split; [reflexivity|].
    exists ("is_bank_statement", TBool). split; [left; reflexivity | reflexivity]. }
  assert (He : schema_mismatch (Stub.extractor_world Stub.partial_json)
                 BankStatementData_fields Stub.partial_json).
  { right. exists Stub.partial_statement. split; [reflexivity|].
    exists ("ClosingBalance", TFloat). split; [|reflexivity].
    right. right. right. left. reflexivity. }
  assert (Hn : schema_mismatch (Cases.statements_world Cases.numbered_bank_json)
                 BankStatementData_fields Cases.numbered_bank_json).
  { right. exists Cases.numbered_bank. split; [reflexivity|].
    exists ("BankName", TStr). split; [left; reflexivity|].
    apply (proj1 (proj2 (proj2 schema_mismatch_yields_nothing))
             (Cases.statements_world Cases.numbered_bank_json)
             Cases.numbered_bank "BankName" TStr).
    right. exists (VInt 7). split; reflexivity. }
  split; [|split].
  - split; [exact Hv|].
    exact (proj2 (proj1 schema_mismatch_yields_nothing
             (Stub.validator_world Stub.misnamed_json) Stub.misnamed_json Stub.pdf
             eq_refl Hv eq_refl)).
  - split; [exact He|].
    exact (proj2 (proj1 (proj2 schema_mismatch_yields_nothing)
             (Stub.extractor_world Stub.partial_json) Stub.partial_json Stub.pdf
             eq_refl He eq_refl)).
  - split; [reflexivity|]. split; [exact Hn|].
    exact (proj2 (proj1 (proj2 schema_mismatch_yields_nothing)
             (Cases.statements_world Cases.numbered_bank_json) Cases.numbered_bank_json
             Stub.pdf eq_refl Hn eq_refl)).
Defined.

(** C7, counterexample.  The model's answer lacks [ClosingBalance]: a
    schema fault occurs in the Extractor, and the envelope it returns has no
    [error] field. *)
Lemma extractor_schema_fault_carries_no_error :
  retry_count_ok Stub.retry_event /\
  extractor_fault (Stub.extractor_world Stub.partial_json) Stub.retry_event SchemaFault /\
  Extractor.handler (Stub.extractor_world Stub.partial_json) Stub.retry_event
    = ret (VDict [("bucket", VStr "statements"); ("key", VStr "uploads/june.pdf");
                  ("valid", VBool false); ("extracted_data", VDict []);
                  ("retry_count", VInt 3)]) /\
  ~ (exists d msg,
       Extractor.handler (Stub.extractor_world Stub.partial_json) Stub.retry_event
         = ret (VDict d) /\
       lookup d "error" = Some (VStr msg)).
Proof.
  split; [right; exists 2; reflexivity|]. split; [|split].
  - apply (EF_schema _ _ (VStr "statements") (VStr "uploads/june.pdf") Stub.pdf Stub.partial_json);
      [repeat split | reflexivity | reflexivity |].
    right. exists Stub.partial_statement. split; [reflexivity|].
    exists ("ClosingBalance", TFloat). split; [|reflexivity].
    right. right. right. left. reflexivity.
  - reflexivity.
  - intros (d & msg & H & He). vm_compute in H. injection H as <-.
    vm_compute in He. discriminate.
Qed.

(** C7, as amended.  On an event whose [retry_count] is absent or an
    integer, every failing invocation of the Extractor returns
    [valid = False], [extracted_data = {}] and the incoming counter plus 1.
    When the handler's own [try] block raises, as on an object-store fault,
    the envelope also has [error], the text of the exception, and its
    [bucket] and [key] are those of the event; on an inference, parse or
    schema fault the envelope has no [error] field. *)
Theorem extractor_failure_envelopes :
  (forall w event e,
     retry_count_ok event ->
     Extractor.handler_try w event = raise e ->
     Extractor.handler w event = ret (failure_envelope event e)) /\
  (forall w event f,
     retry_count_ok event ->
     extractor_fault w event f ->
     match f with
     | ObjectStoreFault e =>
         Extractor.handler w event = ret (failure_envelope event e)
     | _ =>
         exists bucket key,
           lookup event "bucket" = Some bucket /\
           lookup event "key" = Some key /\
           Extractor.handler w event =
             ret (VDict [("bucket", bucket); ("key", key); ("valid", VBool false);
                         ("extracted_data", VDict []);
                         ("retry_count", VInt (retry_count_in event + 1))])
     end).
Proof.
  split.
  - intros w event e. apply extractor_handler_raised.
  - exact extractor_fault_envelope.
Qed.

(** C7 on a document that is not in the store, and on an event without
    [key]. *)
Lemma extractor_failure_envelopes_witness :
  (retry_count_ok Stub.retry_event /\
   extractor_fault Stub.store_down Stub.retry_event (ObjectStoreFault Stub.no_such_key) /\
   Extractor.handler Stub.store_down Stub.retry_event
     = ret (VDict [("bucket", VStr "statements"); ("key", VStr "uploads/june.pdf");
                   ("valid", VBool false); ("extracted_data", VDict []);
                   ("retry_count", VInt 3);
                   ("error", VStr (exn_str Stub.no_such_key))])) /\
  (retry_count_ok Stub.keyless_event /\
   Extractor.handler_try Stub.inference_down Stub.keyless_event
     = raise (Exn KeyError "'key'") /\
   Extractor.handler Stub.inference_down Stub.keyless_event
     = ret (VDict [("bucket", VStr "statements"); ("key", VNone);
                   ("valid", VBool false); ("extracted_data", VDict []);
                   ("retry_count", VInt 1); ("error", VStr "'key'")])).
Proof.
  assert (Hr : retry_count_ok Stub.retry_event) by (right; exists 2; reflexivity).
  assert (Hk : retry_count_ok Stub.keyless_event) by (left; reflexivity).
  assert (Hf : extractor_fault Stub.store_down Stub.retry_event
                 (ObjectStoreFault Stub.no_such_key)).
  { apply (EF_store _ _ (VStr "statements") (VStr "uploads/june.pdf")); reflexivity. }
  split.
  - split; [exact Hr|]. split; [exact Hf|].
    exact (proj2 extractor_failure_envelopes Stub.store_down Stub.retry_event _ Hr Hf).
  - split; [exact Hk|]. split; [reflexivity|].
    exact (proj1 extractor_failure_envelopes Stub.inference_down Stub.keyless_event
             (Exn KeyError "'key'") Hk eq_refl).
Defined.

(** C8, counterexample.  On an event without [key] the Validator returns
    the 500 envelope: no [valid] flag, parsed or not. *)
Lemma validator_keyless_event_gives_no_verdict :
  InputValidator.handler (Stub.validator_world Stub.positive_json) Stub.keyless_event
    = ret (VDict
        [("statusCode", VInt 500);
         ("error", VStr "An exception occurred in the input_validator Lambda: Missing bucket or key in event")]) /\
  ~ (exists d b,
       InputValidator.handler (Stub.validator_world Stub.positive_json) Stub.keyless_event
         = ret (VDict d) /\
       lookup d "valid" = Some (VBool b)).
Proof.
  split; [reflexivity|].
  intros (d & b & H & Hv). vm_compute in H. injection H as <-.
  vm_compute in Hv. discriminate.
Qed.

(** C8, as amended.  Every invocation of the Validator that gets hold of
    its document returns an envelope of exactly three fields, [bucket],
    [key] and [valid]: it has no data field and no [retry_count].  [valid]
    is the boolean field of the JSON object decoded from the model's answer
    when there is one, and [False] whenever the routine's [try] block
    raises. *)
Theorem validator_result_envelope (w : World) (event : dict)
    (bucket key : pyval) (doc : bytes) :
  validator_fetched w event bucket key doc ->
  exists valid,
    InputValidator.handler w event
      = ret (VDict [("bucket", bucket); ("key", key); ("valid", VBool valid)]) /\
    (forall text obj b,
       agent w doc = ret text ->
       has_delimiters text = true ->
       json_loads w (json_slice text) = ret (VDict obj) ->
       lookup obj "is_bank_statement" = Some (VBool b) ->
       valid = b) /\
    (forall e, InputValidator.validate_try w doc = raise e -> valid = false).
Proof.
  intros Hf.
  exists (match InputValidator.validate_try w doc with inr b => b | inl _ => false end).
  split; [now apply validator_handler_fetched|]. split.
  - intros text obj b Ha Hd Hj Hb.
    rewrite (validate_try_parse w doc text Ha).
    rewrite validator_parse_delimited by assumption.
    rewrite Hj. cbn [bind ret]. unfold InputValidator.ValidationResult_init.
    cbn [kwargs_of bind ret].
    now rewrite (field_supplied (validate_bool w) _ _ _ _ b Hb eq_refl).
  - intros e ->. reflexivity.
Qed.

(** C8 on an S3 notification whose document the model accepts. *)
Lemma validator_result_envelope_witness :
  validator_fetched (Stub.validator_world Stub.positive_json) Stub.s3_event
    (VStr "inbox") (VStr "scan.pdf") Stub.pdf /\
  exists valid,
    InputValidator.handler (Stub.validator_world Stub.positive_json) Stub.s3_event
      = ret (VDict [("bucket", VStr "inbox"); ("key", VStr "scan.pdf");
                    ("valid", VBool valid)]) /\
    valid = true.
Proof.
  assert (Hf : validator_fetched (Stub.validator_world Stub.positive_json) Stub.s3_event
                 (VStr "inbox") (VStr "scan.pdf") Stub.pdf) by (repeat split).
  split; [exact Hf|].
  destruct (validator_result_envelope _ _ _ _ _ Hf) as (valid & H & Hp & _).
  exists valid. split; [exact H|].
  exact (Hp Stub.positive_json [("is_bank_statement", VBool true)] true
           eq_refl eq_refl eq_refl eq_refl).
Defined.

(** On a "Records" event the Validator reads the first record and nothing
    else. *)
Lemma locate_records (event : dict) :
  contains event "Records" = true ->
  InputValidator.locate event =
    (bucket <- record_bucket event ;; key <- record_key event ;; ret (bucket, key)).
Proof.
  intros H. unfold InputValidator.locate, record_bucket, record_key, first_record.
  rewrite H.
  destruct (getitem event "Records") as [e|records]; cbn [bind ret]; [reflexivity|].
  destruct (subscript0 records) as [e|s3_event]; cbn [bind ret]; [reflexivity|].
  destruct (subscript s3_event "s3") as [e|s3]; cbn [bind ret]; [reflexivity|].
  destruct (subscript s3 "bucket") as [e|bucket_obj]; cbn [bind ret]; [reflexivity|].
  destruct (subscript bucket_obj "name") as [e|bucket]; cbn [bind ret]; [reflexivity|].
  destruct (subscript s3 "object") as [e|object]; cbn [bind ret]; [reflexivity|].
  destruct (subscript object "key") as [e|key]; cbn [bind ret]; reflexivity.
Qed.

Lemma locate_top_level (event : dict) :
  contains event "Records" = false ->
  InputValidator.locate event = ret (get event "bucket", get event "key").
Proof. intros H. unfold InputValidator.locate. now rewrite H. Qed.

(** C9.  Every envelope the Extractor's handler returns has the [bucket] and
    [key] of its event.  Every envelope of the Validator's handler that
    carries a verdict has the [bucket] and [key] the event names: those of
    its first record for a "Records" event, the top-level ones otherwise. *)
Theorem document_ref_is_passed_through :
  (forall w event d,
     Extractor.handler w event = ret (VDict d) ->
     lookup d "bucket" = Some (get event "bucket") /\
     lookup d "key" = Some (get event "key")) /\
  (forall w event d,
     InputValidator.handler w event = ret (VDict d) ->
     contains d "valid" = true ->
     if contains event "Records" then
       exists bucket key,
         record_bucket event = ret bucket /\ record_key event = ret key /\
         lookup d "bucket" = Some bucket /\ lookup d "key" = Some key
     else
       lookup d "bucket" = Some (get event "bucket") /\
       lookup d "key" = Some (get event "key")).
Proof.
  split.
  - intros w event d H.
    destruct (extractor_envelopes w event _ H)
      as [(e & rc & _ & E) | (bucket & key & data & rc & Hb & Hk & _ & E)];
      injection E as ->; [split; reflexivity|].
    unfold get, get_default. rewrite Hb, Hk. split; reflexivity.
  - intros w event d H Hv.
    destruct (validator_handler_shapes w event)
      as [(e & _ & E) | (bucket & key & b & Hl & E)];
      rewrite E in H; injection H as <-; [discriminate Hv|].
    destruct (contains event "Records") eqn:Hc.
    + rewrite (locate_records event Hc) in Hl.
      destruct (record_bucket event) as [e|bucket']; [discriminate|].
      destruct (record_key event) as [e|key']; [discriminate|].
      cbn [bind ret] in Hl. injection Hl as -> ->.
      exists bucket, key. repeat split.
    + rewrite (locate_top_level event Hc) in Hl. injection Hl as <- <-.
      split; reflexivity.
Qed.

(** C9 on a Step Functions event to the Extractor, and on an S3
    notification to the Validator. *)
Lemma document_ref_is_passed_through_witness :
  (exists d,
     Extractor.handler (Stub.extractor_world Stub.statement_json) Stub.retry_event
       = ret (VDict d) /\
     lookup d "bucket" = Some (VStr "statements") /\
     lookup d "key" = Some (VStr "uploads/june.pdf")) /\
  (exists d,
     InputValidator.handler (Stub.validator_world Stub.positive_json) Stub.s3_event
       = ret (VDict d) /\
     contains d "valid" = true /\
     exists bucket key,
       record_bucket Stub.s3_event = ret bucket /\ record_key Stub.s3_event = ret key /\
       lookup d "bucket" = Some bucket /\ lookup d "key" = Some key).
Proof.
  split.
  - eexists. split; [reflexivity|].
    exact (proj1 document_ref_is_passed_through
             (Stub.extractor_world Stub.statement_json) Stub.retry_event _ eq_refl).
  - eexists. split; [reflexivity|]. split; [reflexivity|].
    exact (proj2 document_ref_is_passed_through
             (Stub.validator_world Stub.positive_json) Stub.s3_event _ eq_refl eq_refl).
Defined.

(** C10.  The Validator's handler reads an event by its shape.  When the
    event has a "Records" list, bucket and key are the bucket name and the
    object key of its first record, whatever the later records and the
    top-level [bucket] and [key] hold.  Without "Records" they are the
    top-level [bucket] and [key], and when either is missing or empty the
    handler returns the envelope [{statusCode: 500, error: message}], which
    has no [valid], no [bucket] and no [key].  The handler returns on every
    event. *)
Theorem validator_reads_events_by_shape :
  (forall w event record rest s3 bucket_obj object bucket key,
     lookup event "Records" = Some (VList (VDict record :: rest)) ->
     lookup record "s3" = Some (VDict s3) ->
     lookup s3 "bucket" = Some (VDict bucket_obj) ->
     lookup bucket_obj "name" = Some bucket ->
     lookup s3 "object" = Some (VDict object) ->
     lookup object "key" = Some key ->
     InputValidator.locate event = ret (bucket, key) /\
     forall doc,
       truthy bucket = true -> truthy key = true ->
       s3_get_object w bucket key = ret doc ->
       exists valid,
         InputValidator.handler w event
           = ret (VDict [("bucket", bucket); ("key", key); ("valid", VBool valid)])) /\
  (forall w event bucket key doc,
     lookup event "Records" = None ->
     lookup event "bucket" = Some bucket ->
     lookup event "key" = Some key ->
     truthy bucket = true -> truthy key = true ->
     s3_get_object w bucket key = ret doc ->
     exists valid,
       InputValidator.handler w event
         = ret (VDict [("bucket", bucket); ("key", key); ("valid", VBool valid)])) /\
  (forall w event,
     lookup event "Records" = None ->
     lookup event "bucket" = None \/ lookup event "bucket" = Some (VStr "") \/
     lookup event "key" = None \/ lookup event "key" = Some (VStr "") ->
     InputValidator.handler w event
       = ret (VDict
           [("statusCode", VInt 500);
            ("error", VStr "An exception occurred in the input_validator Lambda: Missing bucket or key in event")])) /\
  (forall w event, returns (InputValidator.handler w event)).
Proof.
  split; [|split; [|split]].
  - intros w event record rest s3 bucket_obj object bucket key Hr Hs Hb Hn Ho Hk.
    assert (L : InputValidator.locate event = ret (bucket, key)).
    { unfold InputValidator.locate, contains, getitem. rewrite Hr.
      cbn [bind ret subscript0 subscript]. unfold getitem.
      rewrite Hs. cbn [bind ret subscript]. unfold getitem.
      rewrite Hb. cbn [bind ret subscript]. unfold getitem.
      rewrite Hn. cbn [bind ret subscript]. unfold getitem.
      rewrite Ho. cbn [bind ret subscript]. unfold getitem.
      now rewrite Hk. }
    split; [exact L|]. intros doc Tb Tk Hg.
    eexists. apply (validator_handler_fetched w event bucket key doc).
    repeat split; assumption.
  - intros w event bucket key doc Hr Hb Hk Tb Tk Hg.
    eexists. apply (validator_handler_fetched w event bucket key doc).
    repeat split; try assumption.
    unfold InputValidator.locate, contains, get, get_default. now rewrite Hr, Hb, Hk.
  - intros w event Hr H.
    apply (validator_handler_raised w event (Exn ValueError "Missing bucket or key in event")).
    unfold InputValidator.handler_try, InputValidator.locate, contains. rewrite Hr.
    cbn [bind ret fst snd]. unfold get, get_default.
    destruct H as [H | [H | [H | H]]]; rewrite H; cbn [truthy String.eqb negb orb];
      try reflexivity;
      destruct (negb (truthy _)); reflexivity.
  - exact validator_handler_total.
Qed.

(** C10 on an S3 notification with two records and with top-level fields,
    on a Step Functions event, and on an event without [key]. *)
Lemma validator_reads_events_by_shape_witness :
  (lookup Cases.two_records_event "Records"
     = Some (VList [Stub.s3_record; Cases.archive_record]) /\
   lookup Cases.two_records_event "bucket" = Some (VStr "statements") /\
   InputValidator.locate Cases.two_records_event = ret (VStr "inbox", VStr "scan.pdf") /\
   exists valid,
     InputValidator.handler (Stub.validator_world Stub.positive_json) Cases.two_records_event
       = ret (VDict [("bucket", VStr "inbox"); ("key", VStr "scan.pdf");
                     ("valid", VBool valid)])) /\
  (exists valid,
     InputValidator.handler (Stub.validator_world Stub.positive_json) Stub.step_event
       = ret (VDict [("bucket", VStr "statements"); ("key", VStr "uploads/june.pdf");
                     ("valid", VBool valid)])) /\
  (lookup Stub.keyless_event "Records" = None /\
   lookup Stub.keyless_event "key" = None /\
   InputValidator.handler (Stub.validator_world Stub.positive_json) Stub.keyless_event
     = ret (VDict
         [("statusCode", VInt 500);
          ("error", VStr "An exception occurred in the input_validator Lambda: Missing bucket or key in event")])).
Proof.
  split; [|split].
  - pose proof (proj1 validator_reads_events_by_shape
             (Stub.validator_world Stub.positive_json) Cases.two_records_event
             [("s3", VDict [("bucket", VDict [("name", VStr "inbox")]);
                            ("object", VDict [("key", VStr "scan.pdf")])])]
             [Cases.archive_record]
             [("bucket", VDict [("name", VStr "inbox")]);
              ("object", VDict [("key", VStr "scan.pdf")])]
             [("name", VStr "inbox")] [("key", VStr "scan.pdf")]
             (VStr "inbox") (VStr "scan.pdf")
             eq_refl eq_refl eq_refl eq_refl eq_refl eq_refl) as (L & H).
    split; [reflexivity|]. split; [reflexivity|]. split; [exact L|].
    exact (H Stub.pdf eq_refl eq_refl eq_refl).
  - exact (proj1 (proj2 validator_reads_events_by_shape)
             (Stub.validator_world Stub.positive_json) Stub.step_event
             (VStr "statements") (VStr "uploads/june.pdf") Stub.pdf
             eq_refl eq_refl eq_refl eq_refl eq_refl eq_refl).
  - split; [reflexivity|]. split; [reflexivity|].
    exact (proj1 (proj2 (proj2 validator_reads_events_by_shape))
             (Stub.validator_world Stub.positive_json) Stub.keyless_event
             eq_refl (or_intror (or_intror (or_introl eq_refl)))).
Defined.

(** The typing of the counter matters: on a [retry_count] of [null] the
    addition in the [except] branch raises again, and that [TypeError]
    leaves the Extractor's handler. *)
Example extractor_raises_on_null_counter :
  Extractor.handler Stub.store_down
    [("bucket", VStr "statements"); ("key", VStr "uploads/june.pdf"); ("retry_count", VNone)]
  = raise (Exn TypeError "unsupported operand type(s) for +: 'NoneType' and 'int'").
Proof. reflexivity. Qed.

(* ===================================================================== *)
(** ** More about the slice                                              *)
(* ===================================================================== *)

(** A text splits at the first occurrence of a character it has. *)
Lemma first_occurrence (c : ascii) (s : string) :
  occurs c s = true ->
  exists pre rest, s = pre ++ String c rest /\ occurs c pre = false.
Proof.
  induction s as [|a s IH]; cbn [occurs]; [discriminate|].
  destruct (Ascii.eqb a c) eqn:E.
  - intros _. apply Ascii.eqb_eq in E as ->. now exists EmptyString, s.
  - cbn [orb]. intros H. destruct (IH H) as (pre & rest & -> & Hp).
    exists (String a pre), rest. split; [reflexivity|].
    cbn [occurs]. now rewrite E, Hp.
Qed.

(** A text splits at the last occurrence of a character it has. *)
Lemma last_occurrence (c : ascii) (s : string) :
  occurs c s = true ->
  exists pre post, s = pre ++ String c post /\ occurs c post = false.
Proof.
  induction s as [|a s IH]; cbn [occurs]; [discriminate|].
  destruct (occurs c s) eqn:Hs.
  - intros _. destruct (IH eq_refl) as (pre & post & -> & Hp).
    now exists (String a pre), post.
  - rewrite orb_false_r. intros E. apply Ascii.eqb_eq in E as ->.
    now exists EmptyString, s.
Qed.

(** Two splittings of one text: the shorter prefix is a prefix of the
    longer one. *)
Lemma append_split (a b x y : string) :
  strlen a <= strlen b ->
  a ++ x = b ++ y ->
  exists m, b = a ++ m /\ x = m ++ y.
Proof.
  revert b. induction a as [|c a IH]; intros b Hlen H.
  - exists b. now split.
  - destruct b as [|c' b].
    + rewrite strlen_cons in Hlen. pose proof (strlen_nonneg a).
      unfold strlen in Hlen at 2. simpl in Hlen. lia.
    + cbn [append] in H. injection H as -> H.
      rewrite !strlen_cons in Hlen.
      destruct (IH b ltac:(lia) H) as (m & -> & ->). now exists m.
Qed.

(** X1.  What [json.loads] is given when both delimiters are there: nothing,
    when the last "}" comes before the first "{"; otherwise a piece of the
    answer that begins with "{" and ends with "}", with no "{" before it
    and no "}" after it. *)
Theorem json_slice_dichotomy (text : string) :
  has_delimiters text = true ->
  (rfind text "}" < find text "{" /\ json_slice text = EmptyString) \/
  (exists pre mid post,
     text = pre ++ String "{" (mid ++ String "}" post) /\
     occurs "{" pre = false /\
     occurs "}" post = false /\
     json_slice text = String "{" (mid ++ String "}" EmptyString)).
Proof.
  unfold has_delimiters. intros H. apply andb_true_iff in H as [Ho Hc].
  destruct (first_occurrence "{" text Ho) as (p1 & r1 & E1 & Hp1).
  destruct (last_occurrence "}" text Hc) as (p2 & post & E2 & Hpost).
  assert (Hf : find text "{" = strlen p1).
  { unfold find. rewrite E1, find_from_app by assumption. lia. }
  assert (Hr : rfind text "}" = strlen p2).
  { unfold rfind. rewrite E2, rfind_from_app by assumption. lia. }
  destruct (Z.lt_ge_cases (strlen p2) (strlen p1)) as [Hlt | Hge].
  - left. split; [lia|]. apply json_slice_misordered. lia.
  - right. assert (E : p1 ++ String "{" r1 = p2 ++ String "}" post) by congruence.
    destruct (append_split _ _ _ _ Hge E) as (m & -> & Hm).
    destruct m as [|c m]; cbn [append] in Hm; [discriminate|].
    injection Hm as <- ->.
    exists p1, m, post. repeat split; try assumption.
    rewrite E1. now apply json_slice_noise.
Qed.

(** X1 on an answer with two objects: the slice runs from the first "{" to
    the last "}", over both. *)
Lemma json_slice_dichotomy_witness :
  has_delimiters Cases.two_objects = true /\
  ((rfind Cases.two_objects "}" < find Cases.two_objects "{" /\
    json_slice Cases.two_objects = EmptyString) \/
   (exists pre mid post,
      Cases.two_objects = pre ++ String "{" (mid ++ String "}" post) /\
      occurs "{" pre = false /\
      occurs "}" post = false /\
      json_slice Cases.two_objects = String "{" (mid ++ String "}" EmptyString))).
Proof.
  split; [reflexivity|].
  exact (json_slice_dichotomy Cases.two_objects eq_refl).
Defined.

(** X2.  An answer whose last "}" comes before its first "{" passes the
    test for delimiters: neither routine raises "No JSON object found";
    each decodes the empty text instead, and when the decoder rejects it
    the Validator's routine returns [False] and the Extractor's the empty
    dict. *)
Theorem misordered_delimiters_reach_the_decoder (w : World) (text : string) :
  has_delimiters text = true ->
  rfind text "}" < find text "{" ->
  InputValidator.parse_response w text
    = (parsed_json <- json_loads w EmptyString ;;
       InputValidator.ValidationResult_init w parsed_json) /\
  Extractor.parse_response w text
    = (parsed_json <- json_loads w EmptyString ;;
       Extractor.BankStatementData_init w parsed_json) /\
  forall e doc,
    json_loads w EmptyString = raise e ->
    agent w doc = ret text ->
    InputValidator.parse_response w text = raise e /\
    InputValidator.validate_bank_statement w doc = ret false /\
    Extractor.extract_bank_statement_data w doc = ret (VDict []).
Proof.
  intros Hd Hlt.
  pose proof (json_slice_misordered text Hlt) as Hs.
  assert (Pv : InputValidator.parse_response w text
               = (parsed_json <- json_loads w EmptyString ;;
                  InputValidator.ValidationResult_init w parsed_json))
    by (rewrite validator_parse_delimited by assumption; now rewrite Hs).
  assert (Pe : Extractor.parse_response w text
               = (parsed_json <- json_loads w EmptyString ;;
                  Extractor.BankStatementData_init w parsed_json))
    by (rewrite extractor_parse_delimited by assumption; now rewrite Hs).
  split; [exact Pv|]. split; [exact Pe|].
  intros e doc He Ha.
  assert (Pv' : InputValidator.parse_response w text = raise e) by (now rewrite Pv, He).
  split; [exact Pv'|]. split.
  - apply (validate_raised w doc e).
    rewrite (validate_try_parse w doc text Ha). now rewrite Pv'.
  - apply (extract_raised w doc e).
    rewrite (extract_try_parse w doc text Ha). now rewrite Pe, He.
Qed.

(** X2 on "} nothing to report {", with a decoder that rejects the empty
    text. *)
Lemma misordered_delimiters_reach_the_decoder_witness :
  has_delimiters Cases.misordered_answer = true /\
  rfind Cases.misordered_answer "}" < find Cases.misordered_answer "{" /\
  InputValidator.parse_response (Cases.strict_world Cases.misordered_answer)
    Cases.misordered_answer = raise Stub.decode_error /\
  InputValidator.validate_bank_statement (Cases.strict_world Cases.misordered_answer)
    Stub.pdf = ret false /\
  Extractor.extract_bank_statement_data (Cases.strict_world Cases.misordered_answer)
    Stub.pdf = ret (VDict []).
Proof.
  assert (Hd : has_delimiters Cases.misordered_answer = true) by reflexivity.
  assert (Hlt : rfind Cases.misordered_answer "}" < find Cases.misordered_answer "{")
    by (vm_compute; reflexivity).
  split; [exact Hd|]. split; [exact Hlt|].
  exact (proj2 (proj2 (misordered_delimiters_reach_the_decoder
           (Cases.strict_world Cases.misordered_answer) Cases.misordered_answer Hd Hlt))
           Stub.decode_error Stub.pdf eq_refl eq_refl).
Defined.

(* ===================================================================== *)
(** ** What a positive result vouches for                                *)
(* ===================================================================== *)

(** The Validator's [try] block returns [True] only on a decoded object
    whose [is_bank_statement] validates to [True]. *)
Lemma validate_try_true (w : World) (doc : bytes) :
  InputValidator.validate_try w doc = ret true ->
  exists text obj v,
    agent w doc = ret text /\
    has_delimiters text = true /\
    json_loads w (json_slice text) = ret (VDict obj) /\
    lookup obj "is_bank_statement" = Some v /\
    validate_bool w v = Some true.
Proof.
  unfold InputValidator.validate_try.
  destruct (agent w doc) as [e|text] eqn:Ha; [discriminate|]. cbn [bind].
  destruct (has_delimiters text) eqn:Hd.
  2:{ now rewrite validator_parse_no_delimiters. }
  rewrite validator_parse_delimited by assumption.
  destruct (json_loads w (json_slice text)) as [e|parsed] eqn:Hj; [discriminate|].
  cbn [bind]. unfold InputValidator.ValidationResult_init.
  destruct parsed as [| | | | | |obj]; try discriminate. cbn [kwargs_of bind ret].
  destruct (field_cases (validate_bool w) "ValidationResult" obj "is_bank_statement")
    as [E | (b & v & Hl & Hv & E)]; rewrite E; [discriminate|].
  cbn [bind ret InputValidator.is_bank_statement]. intros H. injection H as ->.
  now exists text, obj, v.
Qed.

(** X3.  The Validator fails closed.  An envelope with [valid = True] is
    only returned when the document was fetched, the model answered, its
    answer has both delimiters, the slice decoded to a JSON object, and
    the object's [is_bank_statement] validates to [True]. *)
Theorem validator_accepts_only_on_a_positive_answer (w : World) (event d : dict) :
  InputValidator.handler w event = ret (VDict d) ->
  lookup d "valid" = Some (VBool true) ->
  exists bucket key doc text obj v,
    validator_fetched w event bucket key doc /\
    agent w doc = ret text /\
    has_delimiters text = true /\
    json_loads w (json_slice text) = ret (VDict obj) /\
    lookup obj "is_bank_statement" = Some v /\
    validate_bool w v = Some true.
Proof.
  intros H Hv. unfold InputValidator.handler in H.
  destruct (InputValidator.handler_try w event) as [e|out] eqn:E; cbn [try_except ret] in H.
  - injection H as <-. discriminate Hv.
  - injection H as ->. unfold InputValidator.handler_try in E.
    destruct (InputValidator.locate event) as [e|[bucket key]] eqn:Hl; [discriminate|].
    cbn [bind ret fst snd] in E.
    destruct (truthy bucket) eqn:Tb; [|discriminate].
    destruct (truthy key) eqn:Tk; [|discriminate]. cbn [negb orb] in E.
    destruct (s3_get_object w bucket key) as [e|doc] eqn:Hs; [discriminate|].
    cbn [bind ret] in E. rewrite validate_total in E. cbn [bind ret] in E.
    injection E as <-. cbn in Hv.
    destruct (InputValidator.validate_try w doc) as [e|[|]] eqn:T; try discriminate.
    destruct (validate_try_true w doc T) as (text & obj & v & Ha & Hd & Hj & Ho & Hb).
    exists bucket, key, doc, text, obj, v. repeat split; assumption.
Qed.

(** X3 on an S3 notification whose document the model accepts. *)
Lemma validator_accepts_only_on_a_positive_answer_witness :
  exists bucket key doc text obj v,
    validator_fetched (Stub.validator_world Stub.positive_json) Stub.s3_event bucket key doc /\
    agent (Stub.validator_world Stub.positive_json) doc = ret text /\
    has_delimiters text = true /\
    json_loads (Stub.validator_world Stub.positive_json) (json_slice text) = ret (VDict obj) /\
    lookup obj "is_bank_statement" = Some v /\
    validate_bool (Stub.validator_world Stub.positive_json) v = Some true.
Proof.
  exact (validator_accepts_only_on_a_positive_answer
           (Stub.validator_world Stub.positive_json) Stub.s3_event _ eq_refl eq_refl).
Defined.

(** The model is built only from an object that supplies all six fields. *)
Lemma init_returns_supplied (w : World) (obj : dict) (r : Extractor.BankStatementData) :
  Extractor.BankStatementData_init w (VDict obj) = ret r ->
  forallb (supplies w obj) BankStatementData_fields = true.
Proof.
  intros H. apply forallb_forall. intros f Hin.
  destruct (supplies w obj f) eqn:S; [reflexivity|].
  rewrite (extractor_init_mismatch w obj f Hin S) in H. discriminate.
Qed.

(** X4.  The Extractor fails closed.  An envelope with [valid = True] is
    only returned when the document was fetched, the model answered, its
    answer has both delimiters, the slice decoded to a JSON object that
    supplies all six fields, and [extracted_data] is the dump of the record
    built from that object; such an envelope has no [error]. *)
Theorem extractor_accepts_only_a_whole_record (w : World) (event d : dict) :
  Extractor.handler w event = ret (VDict d) ->
  lookup d "valid" = Some (VBool true) ->
  exists bucket key doc text obj r,
    extractor_fetched w event bucket key doc /\
    agent w doc = ret text /\
    has_delimiters text = true /\
    json_loads w (json_slice text) = ret (VDict obj) /\
    forallb (supplies w obj) BankStatementData_fields = true /\
    Extractor.BankStatementData_init w (VDict obj) = ret r /\
    lookup d "extracted_data" = Some (Extractor.model_dump r) /\
    lookup d "error" = None.
Proof.
  intros H Hv. unfold Extractor.handler in H.
  destruct (Extractor.handler_try w event) as [e|out] eqn:E; cbn [try_except] in H.
  - destruct (Extractor.next_retry_count event) as [e'|rc]; [discriminate|].
    cbn [bind ret] in H. injection H as <-. discriminate Hv.
  - injection H as ->. unfold Extractor.handler_try, getitem in E.
    destruct (lookup event "bucket") as [bucket|] eqn:Hb; [|discriminate].
    destruct (lookup event "key") as [key|] eqn:Hk; [|discriminate].
    cbn [bind ret] in E.
    destruct (s3_get_object w bucket key) as [e|doc] eqn:Hs; [discriminate|].
    cbn [bind] in E. rewrite extract_total in E. cbn [bind ret] in E.
    destruct (Extractor.next_retry_count event) as [e'|rc]; [discriminate|].
    cbn [bind ret] in E. injection E as <-.
    destruct (Extractor.extract_try w doc) as [e|data] eqn:T; [discriminate Hv|].
    destruct (extract_try_returned w doc data T) as (text & obj & r & Ha & Hd & Hj & Hi & ->).
    exists bucket, key, doc, text, obj, r.
    repeat split; try assumption. now apply (init_returns_supplied w obj r).
Qed.

(** X4 on a third attempt that succeeds. *)
Lemma extractor_accepts_only_a_whole_record_witness :
  exists bucket key doc text obj r,
    extractor_fetched (Stub.extractor_world Stub.noisy_statement) Stub.retry_event
      bucket key doc /\
    agent (Stub.extractor_world Stub.noisy_statement) doc = ret text /\
    has_delimiters text = true /\
    json_loads (Stub.extractor_world Stub.noisy_statement) (json_slice text)
      = ret (VDict obj) /\
    forallb (supplies (Stub.extractor_world Stub.noisy_statement) obj)
      BankStatementData_fields = true /\
    Extractor.BankStatementData_init (Stub.extractor_world Stub.noisy_statement) (VDict obj)
      = ret r /\
    lookup
      [("bucket", VStr "statements"); ("key", VStr "uploads/june.pdf");
       ("valid", VBool true); ("extracted_data", VDict Stub.statement);
       ("retry_count", VInt 3)] "extracted_data" = Some (Extractor.model_dump r) /\
    lookup
      [("bucket", VStr "statements"); ("key", VStr "uploads/june.pdf");
       ("valid", VBool true); ("extracted_data", VDict Stub.statement);
       ("retry_count", VInt 3)] "error" = None.
Proof.
  exact (extractor_accepts_only_a_whole_record
           (Stub.extractor_world Stub.noisy_statement) Stub.retry_event _ eq_refl eq_refl).
Defined.

(* ===================================================================== *)
(** ** Events that are not what a handler expects                        *)
(* ===================================================================== *)

(** X5.  Whatever the shape of the event, when the bucket or the key the
    Validator read from it is falsy (missing, [null], empty, [0],
    [false]) the handler returns the 500 envelope with "Missing bucket or
    key in event"; the answer does not depend on the world. *)
Theorem validator_rejects_a_falsy_locator (w : World) (event : dict) (bucket key : pyval) :
  InputValidator.locate event = ret (bucket, key) ->
  truthy bucket = false \/ truthy key = false ->
  InputValidator.handler w event
    = ret (VDict
        [("statusCode", VInt 500);
         ("error", VStr "An exception occurred in the input_validator Lambda: Missing bucket or key in event")]).
Proof.
  intros Hl H.
  apply (validator_handler_raised w event (Exn ValueError "Missing bucket or key in event")).
  unfold InputValidator.handler_try. rewrite Hl. cbn [bind ret fst snd].
  destruct H as [-> | ->]; [reflexivity|].
  now destruct (truthy bucket).
Qed.

(** X5 on an S3 notification whose bucket name is empty. *)
Lemma validator_rejects_a_falsy_locator_witness :
  InputValidator.locate Cases.unnamed_bucket_event = ret (VStr "", VStr "scan.pdf") /\
  InputValidator.handler (Stub.validator_world Stub.positive_json) Cases.unnamed_bucket_event
    = ret (VDict
        [("statusCode", VInt 500);
         ("error", VStr "An exception occurred in the input_validator Lambda: Missing bucket or key in event")]).
Proof.
  split; [reflexivity|].
  exact (validator_rejects_a_falsy_locator (Stub.validator_world Stub.positive_json)
           Cases.unnamed_bucket_event (VStr "") (VStr "scan.pdf") eq_refl (or_introl eq_refl)).
Defined.

Lemma lookup_contains (d : dict) (k : string) (v : pyval) :
  lookup d k = Some v -> contains d k = true.
Proof. intros H. unfold contains. now rewrite H. Qed.

(** X6.  An S3 notification the Validator cannot read to the end is
    answered with the 500 envelope carrying the interpreter's message: an
    empty "Records" list with "list index out of range", a first record
    without "s3" with the name of the missing key, a "Records" of [null]
    with "'NoneType' object is not subscriptable". *)
Theorem validator_answers_a_malformed_notification (w : World) (event : dict) :
  (lookup event "Records" = Some (VList []) ->
   InputValidator.handler w event
     = ret (validator_error_envelope (Exn IndexError "list index out of range"))) /\
  (forall record rest,
     lookup event "Records" = Some (VList (VDict record :: rest)) ->
     lookup record "s3" = None ->
     InputValidator.handler w event
       = ret (validator_error_envelope (Exn KeyError "'s3'"))) /\
  (lookup event "Records" = Some VNone ->
   InputValidator.handler w event
     = ret (validator_error_envelope
              (Exn TypeError "'NoneType' object is not subscriptable"))).
Proof.
  split; [|split].
  - intros H. apply validator_handler_raised.
    unfold InputValidator.handler_try, InputValidator.locate, getitem.
    now rewrite (lookup_contains _ _ _ H), H.
  - intros record rest H Hs. apply validator_handler_raised.
    unfold InputValidator.handler_try, InputValidator.locate, getitem.
    rewrite (lookup_contains _ _ _ H), H. cbn [bind ret subscript0 subscript].
    unfold getitem. now rewrite Hs.
  - intros H. apply validator_handler_raised.
    unfold InputValidator.handler_try, InputValidator.locate, getitem.
    now rewrite (lookup_contains _ _ _ H), H.
Qed.

(** X6 on a notification without records and on one whose record has no
    "s3". *)
Lemma validator_answers_a_malformed_notification_witness :
  InputValidator.handler (Stub.validator_world Stub.positive_json) Cases.empty_records_event
    = ret (VDict
        [("statusCode", VInt 500);
         ("error", VStr "An exception occurred in the input_validator Lambda: list index out of range")]) /\
  InputValidator.handler (Stub.validator_world Stub.positive_json) Cases.bare_record_event
    = ret (VDict
        [("statusCode", VInt 500);
         ("error", VStr "An exception occurred in the input_validator Lambda: 's3'")]).
Proof.
  split.
  - exact (proj1 (validator_answers_a_malformed_notification
             (Stub.validator_world Stub.positive_json) Cases.empty_records_event) eq_refl).
  - exact (proj1 (proj2 (validator_answers_a_malformed_notification
             (Stub.validator_world Stub.positive_json) Cases.bare_record_event))
             _ _ eq_refl eq_refl).
Defined.

(** X7.  The Extractor reads [bucket] first and [key] second: without
    [bucket] the failure envelope carries the error "'bucket'", with
    [bucket] but without [key] the error "'key'", and the missing field
    comes back as [None].  Unlike the Validator it does not test the two
    for emptiness: whatever values are there go to the object store. *)
Theorem extractor_reads_bucket_then_key (w : World) (event : dict) :
  retry_count_ok event ->
  (lookup event "bucket" = None ->
   Extractor.handler w event
     = ret (VDict
         [("bucket", VNone); ("key", get event "key"); ("valid", VBool false);
          ("extracted_data", VDict []);
          ("retry_count", VInt (retry_count_in event + 1));
          ("error", VStr "'bucket'")])) /\
  (forall bucket,
     lookup event "bucket" = Some bucket ->
     lookup event "key" = None ->
     Extractor.handler w event
       = ret (VDict
           [("bucket", bucket); ("key", VNone); ("valid", VBool false);
            ("extracted_data", VDict []);
            ("retry_count", VInt (retry_count_in event + 1));
            ("error", VStr "'key'")])) /\
  (forall bucket key e,
     lookup event "bucket" = Some bucket ->
     lookup event "key" = Some key ->
     s3_get_object w bucket key = raise e ->
     Extractor.handler w event
       = ret (VDict
           [("bucket", bucket); ("key", key); ("valid", VBool false);
            ("extracted_data", VDict []);
            ("retry_count", VInt (retry_count_in event + 1));
            ("error", VStr (exn_str e))])).
Proof.
  intros Hr. split; [|split].
  - intros Hb.
    rewrite (extractor_handler_raised w event (Exn KeyError "'bucket'") Hr).
    + unfold failure_envelope, get, get_default. now rewrite Hb.
    + unfold Extractor.handler_try, getitem. now rewrite Hb.
  - intros bucket Hb Hk.
    rewrite (extractor_handler_raised w event (Exn KeyError "'key'") Hr).
    + unfold failure_envelope, get, get_default. now rewrite Hb, Hk.
    + unfold Extractor.handler_try, getitem. now rewrite Hb, Hk.
  - intros bucket key e Hb Hk Hs.
    rewrite (extractor_handler_raised w event e Hr).
    + unfold failure_envelope, get, get_default. now rewrite Hb, Hk.
    + unfold Extractor.handler_try, getitem. rewrite Hb, Hk. cbn [bind ret]. now rewrite Hs.
Qed.

(** X7 on an event that is the Validator's 500 envelope, and on an event
    without [key]. *)
Lemma extractor_reads_bucket_then_key_witness :
  Extractor.handler Stub.inference_down
    [("statusCode", VInt 500); ("error", VStr "Missing bucket or key in event")]
    = ret (VDict
        [("bucket", VNone); ("key", VNone); ("valid", VBool false);
         ("extracted_data", VDict []); ("retry_count", VInt 1);
         ("error", VStr "'bucket'")]) /\
  Extractor.handler Stub.inference_down Stub.keyless_event
    = ret (VDict
        [("bucket", VStr "statements"); ("key", VNone); ("valid", VBool false);
         ("extracted_data", VDict []); ("retry_count", VInt 1);
         ("error", VStr "'key'")]).
Proof.
  split.
  - exact (proj1 (extractor_reads_bucket_then_key Stub.inference_down
             [("statusCode", VInt 500); ("error", VStr "Missing bucket or key in event")]
             (or_introl eq_refl)) eq_refl).
  - exact (proj1 (proj2 (extractor_reads_bucket_then_key Stub.inference_down
             Stub.keyless_event (or_introl eq_refl))) (VStr "statements") eq_refl eq_refl).
Defined.

(* ===================================================================== *)
(** ** The attempt counter                                               *)
(* ===================================================================== *)

Lemma add1_number (v : pyval) :
  is_number v = true -> exists rc, add1 v = ret rc /\ is_number rc = true.
Proof. destruct v; try discriminate; intros _; eexists; split; reflexivity. Qed.

Lemma add1_not_number (v : pyval) :
  is_number v = false -> exists e, add1 v = raise e /\ exn_cls e = TypeError.
Proof. destruct v; try discriminate; intros _; eexists; split; reflexivity. Qed.

(** The handler's [try] block ends with the addition: when that raises, so
    does the block. *)
Lemma handler_try_bad_counter (w : World) (event : dict) (e : exn) :
  Extractor.next_retry_count event = raise e ->
  exists e', Extractor.handler_try w event = raise e'.
Proof.
  intros H. unfold Extractor.handler_try.
  destruct (getitem event "bucket") as [e1|bucket]; [now eexists|]. cbn [bind].
  destruct (getitem event "key") as [e1|key]; [now eexists|]. cbn [bind].
  destruct (s3_get_object w bucket key) as [e1|doc]; [now eexists|]. cbn [bind].
  rewrite extract_total. cbn [bind ret]. rewrite H. now eexists.
Qed.

(** X8.  The Extractor's handler raises exactly when the event has a
    [retry_count] that is not a number, and what it raises is the
    [TypeError] of the addition in its [except] branch.  On a counter that
    is a number ([int], [bool], [float]) or absent it returns an envelope
    whose [retry_count] is that number plus 1. *)
Theorem extractor_raises_exactly_on_a_bad_counter (w : World) (event : dict) :
  (forall e,
     Extractor.handler w event = raise e ->
     exn_cls e = TypeError /\
     exists v, lookup event "retry_count" = Some v /\ is_number v = false) /\
  (forall v,
     lookup event "retry_count" = Some v ->
     is_number v = false ->
     exists e, Extractor.handler w event = raise e /\ exn_cls e = TypeError) /\
  (is_number (get_default event "retry_count" (VInt 0)) = true ->
   exists d rc,
     add1 (get_default event "retry_count" (VInt 0)) = ret rc /\
     Extractor.handler w event = ret (VDict d) /\
     lookup d "retry_count" = Some rc).
Proof.
  split; [|split].
  - intros e H. unfold Extractor.handler in H.
    destruct (Extractor.handler_try w event) as [e0|out]; cbn [try_except] in H;
      [|discriminate].
    unfold Extractor.next_retry_count in H.
    destruct (is_number (get_default event "retry_count" (VInt 0))) eqn:N.
    + destruct (add1_number _ N) as (rc & A & _). rewrite A in H. discriminate.
    + destruct (add1_not_number _ N) as (e' & A & C). rewrite A in H.
      cbn [bind raise] in H. injection H as <-. split; [exact C|].
      unfold get_default in N.
      destruct (lookup event "retry_count") as [v|]; [now exists v | discriminate].
  - intros v Hl N.
    assert (A : exists e, Extractor.next_retry_count event = raise e /\ exn_cls e = TypeError).
    { unfold Extractor.next_retry_count, get_default. rewrite Hl. now apply add1_not_number. }
    destruct A as (e & A & C).
    destruct (handler_try_bad_counter w event e A) as [e' T].
    exists e. split; [|exact C].
    unfold Extractor.handler. rewrite T. cbn [try_except raise]. now rewrite A.
  - intros N. destruct (add1_number _ N) as (rc & A & _).
    change (Extractor.next_retry_count event = ret rc) in A.
    exists (match Extractor.handler w event with
            | inr (VDict d) => d
            | _ => []
            end), rc.
    split; [exact A|]. unfold Extractor.handler.
    destruct (Extractor.handler_try w event) as [e|out] eqn:T; cbn [try_except].
    + rewrite A. cbn [bind ret]. split; reflexivity.
    + unfold Extractor.handler_try in T.
      destruct (getitem event "bucket") as [e1|bucket]; [discriminate|]. cbn [bind] in T.
      destruct (getitem event "key") as [e1|key]; [discriminate|]. cbn [bind] in T.
      destruct (s3_get_object w bucket key) as [e1|doc]; [discriminate|]. cbn [bind] in T.
      rewrite extract_total in T. cbn [bind ret] in T. rewrite A in T.
      cbn [bind ret] in T. injection T as <-. split; reflexivity.
Qed.

(** X8 on a counter that is a text, and on one that is [True]. *)
Lemma extractor_raises_exactly_on_a_bad_counter_witness :
  (exists e,
     Extractor.handler (Stub.extractor_world Stub.statement_json) Cases.text_counter_event
       = raise e /\ exn_cls e = TypeError) /\
  (exists d rc,
     add1 (get_default Cases.bool_counter_event "retry_count" (VInt 0)) = ret rc /\
     Extractor.handler (Stub.extractor_world Stub.statement_json) Cases.bool_counter_event
       = ret (VDict d) /\
     lookup d "retry_count" = Some rc).
Proof.
  split.
  - exact (proj1 (proj2 (extractor_raises_exactly_on_a_bad_counter
             (Stub.extractor_world Stub.statement_json) Cases.text_counter_event))
             (VStr "2") eq_refl eq_refl).
  - exact (proj2 (proj2 (extractor_raises_exactly_on_a_bad_counter
             (Stub.extractor_world Stub.statement_json) Cases.bool_counter_event))
             eq_refl).
Defined.

Lemma lookup_other_field (l1 l2 : dict) (name k : string) (a b : pyval) :
  k <> name ->
  lookup (l1 ++ (name, a) :: l2)%list k = lookup (l1 ++ (name, b) :: l2)%list k.
Proof.
  intros Hk. induction l1 as [|[k' v] l1 IH]; cbn [app lookup].
  - destruct (String.eqb_spec name k); [congruence | reflexivity].
  - now rewrite IH.
Qed.

(** X9.  An envelope of the Extractor is itself an event for the next
    attempt.  When the event names a bucket and a key and has a well-typed
    counter, handing the returned envelope back to the handler, in the same
    world, gives the same envelope with the counter one higher: the same
    bucket, key, verdict, data and error, and [retry_count] two above the
    incoming one. *)
Theorem extractor_retry_composes (w : World) (event d : dict) (bucket key : pyval) :
  retry_count_ok event ->
  lookup event "bucket" = Some bucket ->
  lookup event "key" = Some key ->
  Extractor.handler w event = ret (VDict d) ->
  retry_count_ok d /\
  exists d',
    Extractor.handler w d = ret (VDict d') /\
    lookup d' "retry_count" = Some (VInt (retry_count_in event + 2)) /\
    forall k, k <> "retry_count" -> lookup d' k = lookup d k.
Proof.
  intros Hr Hb Hk H.
  destruct (extractor_handler_shapes w event Hr)
    as [(e & T & E) | (b & k & doc & Hf & E)];
    rewrite E in H; injection H as <-.
  - (* the [try] block raised: with bucket and key there, in the store *)
    assert (Hs : s3_get_object w bucket key = raise e).
    { unfold Extractor.handler_try, getitem in T. rewrite Hb, Hk in T.
      cbn [bind ret] in T.
      destruct (s3_get_object w bucket key) as [e1|doc];
        [cbn [bind] in T; unfold raise in *; congruence|].
      cbn [bind] in T. rewrite extract_total in T. cbn [bind ret] in T.
      rewrite (next_retry_count_ok event Hr) in T. discriminate. }
    unfold get, get_default. rewrite Hb, Hk.
    set (d := [("bucket", bucket); ("key", key); ("valid", VBool false);
               ("extracted_data", VDict []);
               ("retry_count", VInt (retry_count_in event + 1));
               ("error", VStr (exn_str e))]).
    assert (Hr' : retry_count_ok d) by (right; now eexists).
    split; [exact Hr'|].
    eexists. split.
    + apply (extractor_handler_raised w d e Hr').
      unfold Extractor.handler_try, getitem. cbn [d lookup String.eqb Ascii.eqb Bool.eqb].
      cbn [bind ret]. now rewrite Hs.
    + unfold failure_envelope. split.
      * cbn. do 2 f_equal. lia.
      * intros k0 Hk0. unfold get, get_default. cbn [d lookup String.eqb Ascii.eqb Bool.eqb].
        apply (lookup_other_field
                 [("bucket", bucket); ("key", key); ("valid", VBool false);
                  ("extracted_data", VDict [])]
                 [("error", VStr (exn_str e))] "retry_count" k0 _ _ Hk0).
  - destruct Hf as (Hb' & Hk' & Hs).
    assert (b = bucket) by congruence. assert (k = key) by congruence. subst b k.
    set (data := match Extractor.extract_try w doc with inr x => x | inl _ => VDict [] end).
    unfold result_envelope.
    set (d := [("bucket", bucket); ("key", key); ("valid", VBool (truthy data));
               ("extracted_data", data);
               ("retry_count", VInt (retry_count_in event + 1))]).
    assert (Hr' : retry_count_ok d) by (right; now eexists).
    split; [exact Hr'|].
    eexists. split.
    + apply (extractor_handler_fetched w d bucket key doc Hr').
      repeat split; assumption || reflexivity.
    + fold data. unfold result_envelope. split.
      * cbn. do 2 f_equal. lia.
      * intros k0 Hk0.
        apply (lookup_other_field
                 [("bucket", bucket); ("key", key); ("valid", VBool (truthy data));
                  ("extracted_data", data)]
                 [] "retry_count" k0 _ _ Hk0).
Qed.

(** X9 on a document that is not in the store: the second attempt repeats
    the first with the counter at 4. *)
Lemma extractor_retry_composes_witness :
  retry_count_ok Stub.retry_event /\
  Extractor.handler Stub.store_down Stub.retry_event
    = ret (VDict
        [("bucket", VStr "statements"); ("key", VStr "uploads/june.pdf");
         ("valid", VBool false); ("extracted_data", VDict []);
         ("retry_count", VInt 3); ("error", VStr (exn_str Stub.no_such_key))]) /\
  exists d',
    Extractor.handler Stub.store_down
      [("bucket", VStr "statements"); ("key", VStr "uploads/june.pdf");
       ("valid", VBool false); ("extracted_data", VDict []);
       ("retry_count", VInt 3); ("error", VStr (exn_str Stub.no_such_key))]
      = ret (VDict d') /\
    lookup d' "retry_count" = Some (VInt 4).
Proof.
  assert (Hr : retry_count_ok Stub.retry_event) by (right; exists 2; reflexivity).
  split; [exact Hr|]. split; [reflexivity|].
  destruct (proj2 (extractor_retry_composes Stub.store_down Stub.retry_event _
                     (VStr "statements") (VStr "uploads/june.pdf")
                     Hr eq_refl eq_refl eq_refl)) as (d' & H & Hc & _).
  exists d'. split; [exact H | exact Hc].
Defined.

(** X10.  The stages chain.  Whatever the Validator returns is an event the
    Extractor answers without raising, with [retry_count = 1]: the
    Validator's envelope never carries a counter.  From an envelope with a
    verdict the Extractor takes over the bucket and the key; on the 500
    envelope it fails on the missing [bucket]. *)
Theorem validator_envelope_feeds_extractor (wv we : World) (event d : dict) :
  InputValidator.handler wv event = ret (VDict d) ->
  exists d',
    Extractor.handler we d = ret (VDict d') /\
    lookup d' "retry_count" = Some (VInt 1) /\
    (contains d "valid" = true ->
     lookup d' "bucket" = lookup d "bucket" /\ lookup d' "key" = lookup d "key") /\
    (contains d "valid" = false ->
     d' = [("bucket", VNone); ("key", VNone); ("valid", VBool false);
           ("extracted_data", VDict []); ("retry_count", VInt 1);
           ("error", VStr "'bucket'")]).
Proof.
  intros H.
  destruct (validator_handler_shapes wv event)
    as [(e & _ & E) | (bucket & key & b & _ & E)];
    rewrite E in H; injection H as <-.
  - assert (Hr : retry_count_ok
                   [("statusCode", VInt 500);
                    ("error", VStr ("An exception occurred in the input_validator Lambda: "
                                    ++ exn_str e))]) by (left; reflexivity).
    eexists. split; [|split; [|split]].
    + apply (extractor_handler_raised we _ (Exn KeyError "'bucket'") Hr). reflexivity.
    + reflexivity.
    + discriminate.
    + reflexivity.
  - set (d := [("bucket", bucket); ("key", key); ("valid", VBool b)]).
    assert (Hr : retry_count_ok d) by (left; reflexivity).
    destruct (extractor_handler_shapes we d Hr)
      as [(e & _ & ->) | (b' & k' & doc & (Hb & Hk & _) & ->)].
    + eexists. split; [reflexivity|]. split; [reflexivity|].
      split; [intros _; split; reflexivity | discriminate].
    + eexists. split; [reflexivity|]. split; [reflexivity|].
      split; [|discriminate]. intros _. cbn in Hb, Hk.
      injection Hb as <-. injection Hk as <-. split; reflexivity.
Qed.

(** X10 on a negative verdict handed to an Extractor whose inference
    service refuses the call. *)
Lemma validator_envelope_feeds_extractor_witness :
  InputValidator.handler (Stub.validator_world Stub.noisy_answer) Stub.step_event
    = ret (VDict [("bucket", VStr "statements"); ("key", VStr "uploads/june.pdf");
                  ("valid", VBool false)]) /\
  exists d',
    Extractor.handler Stub.inference_down
      [("bucket", VStr "statements"); ("key", VStr "uploads/june.pdf");
       ("valid", VBool false)] = ret (VDict d') /\
    lookup d' "retry_count" = Some (VInt 1) /\
    lookup d' "bucket" = Some (VStr "statements") /\
    lookup d' "key" = Some (VStr "uploads/june.pdf").
Proof.
  split; [reflexivity|].
  destruct (validator_envelope_feeds_extractor
              (Stub.validator_world Stub.noisy_answer) Stub.inference_down
              Stub.step_event _ eq_refl) as (d' & H & Hc & Hv & _).
  exists d'. split; [exact H|]. split; [exact Hc|]. exact (Hv eq_refl).
Defined.

(* ===================================================================== *)
(** ** The status updater                                                *)
(* ===================================================================== *)

Section StatusUpdaterFacts.
Import StatusUpdater.

Lemma lookup_setitem_same (d : dict) (k : string) (v : pyval) :
  lookup (setitem d k v) k = Some v.
Proof.
  induction d as [|[k' v'] d IH]; cbn [setitem lookup].
  - now rewrite String.eqb_refl.
  - destruct (String.eqb k' k) eqn:E; cbn [lookup]; rewrite E; [reflexivity | exact IH].
Qed.

Lemma lookup_setitem_other (d : dict) (k k0 : string) (v : pyval) :
  k0 <> k -> lookup (setitem d k v) k0 = lookup d k0.
Proof.
  intros Hk. induction d as [|[k' v'] d IH]; cbn [setitem lookup].
  - destruct (String.eqb_spec k k0); [congruence | reflexivity].
  - destruct (String.eqb_spec k' k) as [->|Hne]; cbn [lookup].
    + destruct (String.eqb_spec k k0); [congruence | reflexivity].
    + now rewrite IH.
Qed.

(** Setting a key keeps the keys that were there, in their order. *)
Lemma keys_setitem (d : dict) (k : string) (v : pyval) :
  map fst (setitem d k v)
    = if contains d k then map fst d else (map fst d ++ [k])%list.
Proof.
  unfold contains. induction d as [|[k' v'] d IH]; cbn [setitem lookup map fst app].
  - reflexivity.
  - destruct (String.eqb k' k) eqn:E; cbn [map fst]; [reflexivity|].
    rewrite IH. now destruct (lookup d k).
Qed.

Lemma pending_mark (q : item) : pending (mark q) = false.
Proof.
  unfold pending, mark.
  rewrite lookup_setitem_other by discriminate.
  destruct (lookup q "answer"); [|reflexivity].
  unfold get_default. rewrite lookup_setitem_same. cbn. apply andb_false_r.
Qed.

(** The loop puts the marked items in order and stops at the first put
    that raises. *)
Lemma put_all_prefix (t : Table) (qs done : list item) :
  exists n,
    fst (put_all t done qs) = (done ++ map mark (firstn n qs))%list /\
    (forall u, snd (put_all t done qs) = inr u -> n = List.length qs).
Proof.
  revert done. induction qs as [|q qs IH]; intros done; cbn [put_all].
  - exists 0%nat. cbn. rewrite app_nil_r. split; [reflexivity | reflexivity].
  - destruct (put_item t done (mark q)) as [e|[]].
    + exists 1%nat. cbn [fst snd firstn map]. split; [reflexivity | discriminate].
    + destruct (IH (done ++ [mark q])%list) as (n & Hn & Hall).
      exists (S n). cbn [firstn map List.length]. rewrite Hn, <- app_assoc. cbn [app].
      split; [reflexivity|]. intros u Hu. f_equal. now apply (Hall u).
Qed.

Lemma put_all_succeeds (t : Table) (qs done : list item) :
  (forall d q, put_item t d q = ret tt) ->
  put_all t done qs = ((done ++ map mark qs)%list, ret tt).
Proof.
  intros H. revert done. induction qs as [|q qs IH]; intros done; cbn [put_all map].
  - now rewrite app_nil_r.
  - rewrite H. cbn [ret]. rewrite IH, <- app_assoc. reflexivity.
Qed.

(** The calls of a run: none, the query alone, or the query and the puts of
    the first pending items, marked, in their order. *)
Lemma handler_calls (t : Table) (event : dict) :
  fst (handler t event) = [] \/
  fst (handler t event) = [Query] \/
  exists items n,
    query t = ret items /\
    fst (handler t event)
      = Query :: map Put (map mark (firstn n (filter pending items))).
Proof.
  unfold handler.
  destruct (job_status event) as [a|status]; [now left|].
  destruct (eq_str status "COMPLETED").
  2:{ destruct (eq_str status "FAILED"); now left. }
  destruct (query t) as [e|items] eqn:Hq; [right; now left|].
  destruct (filter pending items) as [|q qs] eqn:Hf; [right; now left|].
  right. right. exists items.
  destruct (put_all_prefix t (q :: qs) []) as (n & Hn & _).
  exists n. split; [reflexivity|]. rewrite Hf.
  assert (W : fst (with_batch_writer t (q :: qs)) = fst (put_all t [] (q :: qs))).
  { unfold with_batch_writer. now destruct (batch_exit t _). }
  destruct (snd (with_batch_writer t (q :: qs))); cbn [fst]; rewrite W, Hn; reflexivity.
Qed.

End StatusUpdaterFacts.

Lemma in_firstn {A} (n : nat) (l : list A) (x : A) :
  In x (firstn n l) -> In x l.
Proof.
  revert l. induction n as [|n IH]; intros [|a l]; cbn [firstn In]; try tauto.
  intros [-> | H]; [now left | right; now apply IH].
Qed.

(** X12.  Marking an item sets [processed] to [True] and nothing else:
    every other attribute keeps its value, the keys that were there keep
    their order ([processed] goes to the end when it is new), and the
    marked item no longer passes the filter. *)
Theorem mark_sets_processed_only (q : StatusUpdater.item) :
  lookup (StatusUpdater.mark q) "processed" = Some (VBool true) /\
  (forall k, k <> "processed" -> lookup (StatusUpdater.mark q) k = lookup q k) /\
  map fst (StatusUpdater.mark q)
    = (if contains q "processed" then map fst q else (map fst q ++ ["processed"])%list) /\
  StatusUpdater.pending (StatusUpdater.mark q) = false.
Proof.
  split; [apply lookup_setitem_same|].
  split; [intros k Hk; now apply lookup_setitem_other|].
  split; [apply keys_setitem | apply pending_mark].
Qed.

(** X13.  The status updater touches the table only on a status that is
    the text "COMPLETED": on any other status, "FAILED" included, on a
    detail without status and on an event without detail it makes no call
    and returns the 200 response "Status update processed.". *)
Theorem status_updater_acts_only_on_completed
    (t : StatusUpdater.Table) (event : dict) (status : pyval) :
  StatusUpdater.job_status event = inr status ->
  StatusUpdater.eq_str status "COMPLETED" = false ->
  StatusUpdater.handler t event = ([], inr StatusUpdater.processed_response).
Proof.
  intros Hs Hc. unfold StatusUpdater.handler. rewrite Hs, Hc.
  now destruct (StatusUpdater.eq_str status "FAILED").
Qed.

(** X13 on a failed ingestion and on an event without detail. *)
Lemma status_updater_acts_only_on_completed_witness :
  StatusUpdater.handler (Admin.table Admin.questions) Admin.failed_event
    = ([], inr StatusUpdater.processed_response) /\
  StatusUpdater.handler (Admin.table Admin.questions) Admin.scheduled_event
    = ([], inr StatusUpdater.processed_response).
Proof.
  split.
  - exact (status_updater_acts_only_on_completed (Admin.table Admin.questions)
             Admin.failed_event (VStr "FAILED") eq_refl eq_refl).
  - exact (status_updater_acts_only_on_completed (Admin.table Admin.questions)
             Admin.scheduled_event VNone eq_refl eq_refl).
Defined.

(** X14.  A [detail] that is there but is not a mapping ([null], a text, a
    list) makes the first statement raise [AttributeError]: the handler
    raises it, outside its [try] block, before any call on the table. *)
Theorem status_updater_needs_a_mapping
    (t : StatusUpdater.Table) (event : dict) (v : pyval) :
  lookup event "detail" = Some v ->
  (forall d, v <> VDict d) ->
  StatusUpdater.handler t event
    = ([], inl (StatusUpdater.AttributeError
                  ("'" ++ type_name v ++ "' object has no attribute 'get'"))).
Proof.
  intros Hl Hv. unfold StatusUpdater.handler, StatusUpdater.job_status, get_default.
  rewrite Hl. destruct v; try reflexivity. now destruct (Hv d).
Qed.

(** X14 on a detail of [null]. *)
Lemma status_updater_needs_a_mapping_witness :
  StatusUpdater.handler (Admin.table Admin.questions) Admin.null_detail_event
    = ([], inl (StatusUpdater.AttributeError "'NoneType' object has no attribute 'get'")).
Proof.
  apply (status_updater_needs_a_mapping (Admin.table Admin.questions)
           Admin.null_detail_event VNone eq_refl).
  intros d. discriminate.
Defined.

(** X15.  On "COMPLETED", with a table that answers every call, the
    handler queries once and puts, in the order of the answer, exactly the
    items that have a non-empty [answer] and no true [processed], each with
    [processed = True].  It returns "No questions to update." when there
    is none and "Status update processed." otherwise. *)
Theorem status_updater_marks_the_pending
    (t : StatusUpdater.Table) (event : dict) (items : list StatusUpdater.item) :
  StatusUpdater.job_status event = inr (VStr "COMPLETED") ->
  StatusUpdater.query t = ret items ->
  (forall done q, StatusUpdater.put_item t done q = ret tt) ->
  (forall puts, StatusUpdater.batch_exit t puts = ret tt) ->
  StatusUpdater.handler t event
    = (StatusUpdater.Query
         :: map StatusUpdater.Put
              (map StatusUpdater.mark (filter StatusUpdater.pending items)),
       inr (match filter StatusUpdater.pending items with
            | [] => StatusUpdater.no_questions
            | _ :: _ => StatusUpdater.processed_response
            end)).
Proof.
  intros Hs Hq Hp He. unfold StatusUpdater.handler. rewrite Hs, Hq.
  cbn [StatusUpdater.eq_str String.eqb Ascii.eqb Bool.eqb ret].
  destruct (filter StatusUpdater.pending items) as [|q qs]; [reflexivity|].
  unfold StatusUpdater.with_batch_writer.
  rewrite (put_all_succeeds t (q :: qs) [] Hp). cbn [fst snd app].
  rewrite He. reflexivity.
Qed.

(** X15 on five questions of which two are pending. *)
Lemma status_updater_marks_the_pending_witness :
  StatusUpdater.handler (Admin.table Admin.questions) Admin.completed_event
    = ([StatusUpdater.Query;
        StatusUpdater.Put (StatusUpdater.mark Admin.answered_new);
        StatusUpdater.Put (StatusUpdater.mark Admin.answered_unflagged)],
       inr StatusUpdater.processed_response).
Proof.
  exact (status_updater_marks_the_pending (Admin.table Admin.questions)
           Admin.completed_event Admin.questions eq_refl eq_refl
           (fun _ _ => eq_refl) (fun _ => eq_refl)).
Defined.

(** X16.  Whatever the table does, every item the handler puts is an item
    of the query's answer that passed the filter, with [processed] set to
    [True]: an item without answer, with an empty answer or already
    processed is never written. *)
Theorem status_updater_writes_only_pending
    (t : StatusUpdater.Table) (event : dict) (q' : StatusUpdater.item) :
  In (StatusUpdater.Put q') (fst (StatusUpdater.handler t event)) ->
  exists items q,
    StatusUpdater.query t = ret items /\
    In q items /\
    StatusUpdater.pending q = true /\
    q' = StatusUpdater.mark q /\
    lookup q' "processed" = Some (VBool true).
Proof.
  intros H.
  destruct (handler_calls t event) as [E | [E | (items & n & Hq & E)]]; rewrite E in H.
  - destruct H.
  - destruct H as [H | []]. discriminate.
  - destruct H as [H | H]; [discriminate|].
    apply in_map_iff in H as (m & Hm & H). injection Hm as ->.
    apply in_map_iff in H as (q & <- & H).
    apply in_firstn, filter_In in H as [Hin Hp].
    exists items, q. repeat split; try assumption. apply lookup_setitem_same.
Qed.

(** X16 on the table whose batch fails on the second item. *)
Lemma status_updater_writes_only_pending_witness :
  In (StatusUpdater.Put (StatusUpdater.mark Admin.answered_unflagged))
     (fst (StatusUpdater.handler (Admin.table_failing_second Admin.questions)
             Admin.completed_event)) /\
  exists items q,
    StatusUpdater.query (Admin.table_failing_second Admin.questions) = ret items /\
    In q items /\
    StatusUpdater.pending q = true /\
    StatusUpdater.mark Admin.answered_unflagged = StatusUpdater.mark q /\
    lookup (StatusUpdater.mark Admin.answered_unflagged) "processed" = Some (VBool true).
Proof.
  assert (H : In (StatusUpdater.Put (StatusUpdater.mark Admin.answered_unflagged))
                (fst (StatusUpdater.handler (Admin.table_failing_second Admin.questions)
                        Admin.completed_event))).
  { right. right. left. reflexivity. }
  split; [exact H|].
  exact (status_updater_writes_only_pending _ _ _ H).
Defined.

Lemma filter_settled (items : list StatusUpdater.item) :
  filter StatusUpdater.pending (StatusUpdater.settled items) = [].
Proof.
  unfold StatusUpdater.settled. induction items as [|q items IH]; cbn [map filter].
  - reflexivity.
  - destruct (StatusUpdater.pending q) eqn:P.
    + now rewrite pending_mark.
    + now rewrite P.
Qed.

(** X17.  A run leaves nothing for the next one.  On a table in which the
    puts of a run have arrived (every pending item is there marked, the
    others as they were) a "COMPLETED" event leads to the query alone and
    to "No questions to update.". *)
Theorem status_updater_settles
    (t : StatusUpdater.Table) (event : dict) (items : list StatusUpdater.item) :
  StatusUpdater.job_status event = inr (VStr "COMPLETED") ->
  StatusUpdater.query t = ret (StatusUpdater.settled items) ->
  StatusUpdater.handler t event = ([StatusUpdater.Query], inr StatusUpdater.no_questions).
Proof.
  intros Hs Hq. unfold StatusUpdater.handler. rewrite Hs, Hq.
  cbn [StatusUpdater.eq_str String.eqb Ascii.eqb Bool.eqb ret].
  now rewrite filter_settled.
Qed.

(** X17 on the five questions after one run. *)
Lemma status_updater_settles_witness :
  StatusUpdater.handler (Admin.table (StatusUpdater.settled Admin.questions))
    Admin.completed_event
  = ([StatusUpdater.Query], inr StatusUpdater.no_questions).
Proof.
  exact (status_updater_settles (Admin.table (StatusUpdater.settled Admin.questions))
           Admin.completed_event Admin.questions eq_refl eq_refl).
Defined.

(** The loop stops at the first put that raises, wherever it stands: the
    items before it were put, the items after it are not. *)
Lemma put_all_stops (t : StatusUpdater.Table)
    (pre : list StatusUpdater.item) (q : StatusUpdater.item)
    (post done : list StatusUpdater.item) (e : exn) :
  (forall a x b,
     pre = (a ++ x :: b)%list ->
     StatusUpdater.put_item t (done ++ map StatusUpdater.mark a)%list (StatusUpdater.mark x)
       = ret tt) ->
  StatusUpdater.put_item t (done ++ map StatusUpdater.mark pre)%list (StatusUpdater.mark q)
    = raise e ->
  StatusUpdater.put_all t done (pre ++ q :: post)%list
    = ((done ++ map StatusUpdater.mark pre ++ [StatusUpdater.mark q])%list, raise e).
Proof.
  revert done. induction pre as [|x pre IH]; intros done Hok Hq.
  - cbn [app map StatusUpdater.put_all] in *. rewrite app_nil_r in Hq. now rewrite Hq.
  - cbn [app map StatusUpdater.put_all].
    pose proof (Hok [] x pre eq_refl) as H0. cbn [map] in H0. rewrite app_nil_r in H0.
    rewrite H0. cbn [ret].
    rewrite (IH (done ++ [StatusUpdater.mark x])%list).
    + now rewrite <- app_assoc.
    + intros a y b ->. rewrite <- app_assoc. exact (Hok (x :: a) y b eq_refl).
    + rewrite <- app_assoc. exact Hq.
Qed.

(** X18.  What the table raises leaves the handler unchanged.  A failing
    query is the only call.  A put that fails, wherever it stands among the
    pending items, ends the loop: the items before it were put, the items
    after it are not, and its exception is raised again once the batch is
    left.  An exception on leaving the batch is raised even when every put
    succeeded. *)
Theorem status_updater_reraises (t : StatusUpdater.Table) (event : dict) :
  StatusUpdater.job_status event = inr (VStr "COMPLETED") ->
  (forall e,
     StatusUpdater.query t = raise e ->
     StatusUpdater.handler t event = ([StatusUpdater.Query], inl (StatusUpdater.Reraised e))) /\
  (forall items pre q post e,
     StatusUpdater.query t = ret items ->
     filter StatusUpdater.pending items = (pre ++ q :: post)%list ->
     (forall a x b,
        pre = (a ++ x :: b)%list ->
        StatusUpdater.put_item t (map StatusUpdater.mark a) (StatusUpdater.mark x) = ret tt) ->
     StatusUpdater.put_item t (map StatusUpdater.mark pre) (StatusUpdater.mark q) = raise e ->
     StatusUpdater.batch_exit t (map StatusUpdater.mark (pre ++ [q]))%list = ret tt ->
     StatusUpdater.handler t event
       = (StatusUpdater.Query
            :: map StatusUpdater.Put (map StatusUpdater.mark (pre ++ [q]))%list,
          inl (StatusUpdater.Reraised e))) /\
  (forall items q rest e,
     StatusUpdater.query t = ret items ->
     filter StatusUpdater.pending items = q :: rest ->
     (forall done x, StatusUpdater.put_item t done x = ret tt) ->
     StatusUpdater.batch_exit t (map StatusUpdater.mark (q :: rest)) = raise e ->
     snd (StatusUpdater.handler t event) = inl (StatusUpdater.Reraised e)).
Proof.
  intros Hs. split; [|split].
  - intros e Hq. unfold StatusUpdater.handler. rewrite Hs, Hq. reflexivity.
  - intros items pre q post e Hq Hf Hok Hp Hx. unfold StatusUpdater.handler.
    rewrite Hs, Hq. cbn [StatusUpdater.eq_str String.eqb Ascii.eqb Bool.eqb ret].
    rewrite Hf.
    assert (P : StatusUpdater.put_all t [] (pre ++ q :: post)%list
                = (map StatusUpdater.mark (pre ++ [q])%list, raise e)).
    { rewrite (put_all_stops t pre q post [] e Hok Hp). cbn [app].
      now rewrite map_app. }
    destruct (pre ++ q :: post)%list as [|y ys] eqn:E;
      [now destruct pre|].
    unfold StatusUpdater.with_batch_writer. rewrite P. cbn [fst snd].
    rewrite Hx. reflexivity.
  - intros items q rest e Hq Hf Hp Hx. unfold StatusUpdater.handler.
    rewrite Hs, Hq. cbn [StatusUpdater.eq_str String.eqb Ascii.eqb Bool.eqb ret].
    rewrite Hf.
    unfold StatusUpdater.with_batch_writer.
    rewrite (put_all_succeeds t (q :: rest) [] Hp). cbn [fst snd app].
    rewrite Hx. reflexivity.
Qed.

(** X18 on a table that cannot be queried, and on a table whose batch
    fails on the second of three pending items. *)
Lemma status_updater_reraises_witness :
  StatusUpdater.handler Admin.table_down Admin.completed_event
    = ([StatusUpdater.Query], inl (StatusUpdater.Reraised Admin.throttled)) /\
  (filter StatusUpdater.pending (Admin.questions ++ [Admin.answered_late])%list
     = [Admin.answered_new; Admin.answered_unflagged; Admin.answered_late] /\
   StatusUpdater.handler
     (Admin.table_failing_second (Admin.questions ++ [Admin.answered_late])%list)
     Admin.completed_event
   = ([StatusUpdater.Query;
       StatusUpdater.Put (StatusUpdater.mark Admin.answered_new);
       StatusUpdater.Put (StatusUpdater.mark Admin.answered_unflagged)],
      inl (StatusUpdater.Reraised Admin.throttled))).
Proof.
  split.
  - exact (proj1 (status_updater_reraises Admin.table_down Admin.completed_event eq_refl)
             Admin.throttled eq_refl).
  - split; [reflexivity|].
    apply (proj1 (proj2 (status_updater_reraises
             (Admin.table_failing_second (Admin.questions ++ [Admin.answered_late])%list)
             Admin.completed_event eq_refl))
             (Admin.questions ++ [Admin.answered_late])%list
             [Admin.answered_new] Admin.answered_unflagged [Admin.answered_late]
             Admin.throttled eq_refl eq_refl).
    + intros [|a0 a] x b H; [reflexivity|].
      injection H as _ H. now destruct a.
    + reflexivity.
    + reflexivity.
Defined.
